(** * Hotkey settings manager: a shallow embedding

    The development follows the two React components of the hotkey
    settings page:

    - [HotkeysManager] (the manager component: load, merge, edit, save,
      reset, export and import of the binding list), and
    - [HotkeyItem] (one row of the page, with the key recorder).

    JavaScript objects used as dictionaries are finite maps over strings,
    optional fields are [option]s, asynchronous handlers run in a small
    state-and-exception monad over the component state, the remote store,
    and a log of what was sent and shown. *)

From stdpp Require Import base option list strings gmap.
From Stdlib Require Import ZArith.

(* String literals are read as strings; [++] stays list concatenation and
   strings are appended with [+:+]. *)
Open Scope string_scope.
Open Scope list_scope.

(** ** JavaScript helpers *)

(** Truthiness of a string value: only the empty string is falsy. *)
Definition truthy (s : string) : bool := negb (String.eqb s "").

(** Truthiness of an optional string field: [undefined] is falsy too. *)
Definition truthy_opt (o : option string) : bool :=
  match o with
  | Some s => truthy s
  | None => false
  end.

(** [a || b] where [a] is an optional string and [b] a string. *)
Definition or_else (o : option string) (d : string) : string :=
  match o with
  | Some s => if truthy s then s else d
  | None => d
  end.

(** [xs.join(sep)] *)
Fixpoint join (sep : string) (xs : list string) : string :=
  match xs with
  | [] => ""
  | [x] => x
  | x :: rest => x +:+ sep +:+ join sep rest
  end.

(** ** Data model *)

Module Hotkey.
(** [interface Hotkey]; [mac], [subgroup] and [description] are optional. *)
Record t : Type := mk {
  id : string;
  section : string;
  element : string;
  label : string;
  key : string;
  mac : option string;
  active : bool;
  subgroup : option string;
  description : option string;
}.

#[global] Instance eq_dec : EqDecision t.
Proof. solve_decision. Defined.

(** [{ ...h, active: a }] *)
Definition with_active (a : bool) (h : t) : t :=
  mk (id h) (section h) (element h) (label h) (key h) (mac h) a
     (subgroup h) (description h).

(** [{ ...h, label: l }] *)
Definition with_label (l : string) (h : t) : t :=
  mk (id h) (section h) (element h) l (key h) (mac h) (active h)
     (subgroup h) (description h).

(** [{ ...h, key: k }] *)
Definition with_key (k : string) (h : t) : t :=
  mk (id h) (section h) (element h) (label h) k (mac h) (active h)
     (subgroup h) (description h).

(** [{ ...h, mac: m }] *)
Definition with_mac (m : string) (h : t) : t :=
  mk (id h) (section h) (element h) (label h) (key h) (Some m) (active h)
     (subgroup h) (description h).
End Hotkey.

Module SectionInfo.
(** [interface Section] *)
Record t : Type := mk {
  id : string;
  title : string;
  description : option string;
}.
End SectionInfo.

Module HotkeySettings.
(** [interface HotkeySettings] *)
Record t : Type := mk { autoTranslatePlatforms : bool }.

#[global] Instance eq_dec : EqDecision t.
Proof. solve_decision. Defined.
End HotkeySettings.

Module CustomSetting.
(** One entry of [custom_hotkeys]: [{ key, active, description? }]. *)
Record t : Type := mk {
  key : string;
  active : bool;
  description : option string;
}.

#[global] Instance eq_dec : EqDecision t.
Proof. solve_decision. Defined.
End CustomSetting.

(** [Record<string, { key; active; description? }>] *)
Abbreviation CustomHotkeys := (gmap string CustomSetting.t).

(** [interface DirtyState]: section id to boolean. *)
Abbreviation DirtyState := (gmap string bool).

(** The [section:element] key of a binding, [`${h.section}:${h.element}`]. *)
Definition lookupKey (h : Hotkey.t) : string :=
  Hotkey.section h +:+ ":" +:+ Hotkey.element h.

(** ** Merging defaults with stored overrides *)

(** [updateHotkeysWithCustomSettings(defaultHotkeys, customHotkeys)] *)
Definition updateHotkeysWithCustomSettings
    (defaultHotkeys : list Hotkey.t) (customHotkeys : CustomHotkeys)
    : list Hotkey.t :=
  map (fun hotkey =>
         match customHotkeys !! lookupKey hotkey with
         | Some customSetting =>
             let h1 := Hotkey.with_key (CustomSetting.key customSetting) hotkey in
             let h2 := Hotkey.with_active (CustomSetting.active customSetting) h1 in
             match CustomSetting.description customSetting with
             | Some d => if truthy d then Hotkey.with_label d h2 else h2
             | None => h2
             end
         | None => hotkey
         end)
      defaultHotkeys.

(** ** Conflict detection *)

(** [getGlobalDuplicates(hotkeyId, newKey)] over the loaded list. *)
Definition getGlobalDuplicates
    (hotkeys : list Hotkey.t) (hotkeyId newKey : string) : list Hotkey.t :=
  filter (fun h => Hotkey.id h ≠ hotkeyId ∧ Hotkey.key h = newKey) hotkeys.

(** ** The remote API and thrown values *)

Module HttpResponse.
(** What the error handler reads of [error.response]: the status and
    [data?.error]. *)
Record t : Type := mk {
  status : option Z;
  data_error : option string;
}.
End HttpResponse.

Module Thrown.
(** What a [catch] clause observes of the value it caught. *)
Record t : Type := mk {
  isObject : bool;                     (* error && typeof error === "object" *)
  hasResponse : bool;                  (* "response" in error *)
  response : option HttpResponse.t;    (* error.response, when not null or undefined *)
  hasRequest : bool;                   (* "request" in error *)
  instanceofError : bool;              (* error instanceof Error *)
  message : string;                    (* error.message *)
}.

(** [new Error(msg)] *)
Definition Error (msg : string) : t := mk true false None false true msg.

(** The [ReferenceError] raised by reading an identifier that is not bound. *)
Definition ReferenceError (name : string) : t :=
  Error (name +:+ " is not defined").
End Thrown.

Module ApiResponse.
(** [interface ApiResponse] *)
Record t : Type := mk {
  custom_hotkeys : option CustomHotkeys;
  hotkey_settings : option HotkeySettings.t;
  error : option string;
}.
End ApiResponse.

Module RequestBody.
(** The body of the [updateHotkeys] call. *)
Record t : Type := mk {
  custom_hotkeys : CustomHotkeys;
  hotkey_settings : HotkeySettings.t;
}.

#[global] Instance eq_dec : EqDecision t.
Proof. solve_decision. Defined.
End RequestBody.

Module SaveResult.
(** [interface SaveResult] *)
Record t : Type := mk {
  ok : bool;
  error : option string;
  data : option ApiResponse.t;
}.
End SaveResult.

(** How a promise settles. *)
Inductive Settled (A : Type) : Type :=
  | Fulfilled (a : A)
  | Rejected (e : Thrown.t).
Arguments Fulfilled {A} a.
Arguments Rejected {A} e.

Inductive ToastType : Type := ToastInfo | ToastError.

Module Toast.
Record t : Type := mk { message : string; type : ToastType }.
End Toast.

(** ** Export and import files *)

(** A file is represented by the JSON value it holds; the text produced by
    [JSON.stringify] and read back by [JSON.parse] is not modelled. *)
#[local] Unset Elimination Schemes.
Inductive Json : Type :=
  | JNull
  | JBool (b : bool)
  | JString (s : string)
  | JArray (items : list Json)
  | JObject (fields : list (string * Json)).
#[local] Set Elimination Schemes.

Module ExportData.
(** [interface ExportData] *)
Record t : Type := mk {
  hotkeys : list Hotkey.t;
  settings : HotkeySettings.t;
  exportedAt : string;
  version : string;
}.
End ExportData.

Module ImportSettings.
(** The imported [settings] object; its field may be missing
    ([{} as HotkeySettings]). *)
Record t : Type := mk { autoTranslatePlatforms : option bool }.
End ImportSettings.

Module ImportData.
(** [interface ImportData] *)
Record t : Type := mk {
  hotkeys : option (list Hotkey.t);
  settings : option ImportSettings.t;
}.
End ImportData.

(** The argument of the import handler, [ImportData | Hotkey[]]. *)
Inductive Imported : Type :=
  | ImportedEnvelope (d : ImportData.t)
  | ImportedArray (hs : list Hotkey.t).

(** An optional property: absent from the object when [undefined]. *)
Definition optional_field (name : string) (o : option string)
    : list (string * Json) :=
  match o with
  | Some s => [(name, JString s)]
  | None => []
  end.

(** The JSON value of one binding. *)
Definition hotkey_to_json (h : Hotkey.t) : Json :=
  JObject
    ([("id", JString (Hotkey.id h));
      ("section", JString (Hotkey.section h));
      ("element", JString (Hotkey.element h));
      ("label", JString (Hotkey.label h));
      ("key", JString (Hotkey.key h))]
     ++ optional_field "mac" (Hotkey.mac h)
     ++ [("active", JBool (Hotkey.active h))]
     ++ optional_field "subgroup" (Hotkey.subgroup h)
     ++ optional_field "description" (Hotkey.description h)).

(** The JSON value of the export envelope. *)
Definition export_to_json (d : ExportData.t) : Json :=
  JObject
    [("hotkeys", JArray (map hotkey_to_json (ExportData.hotkeys d)));
     ("settings",
      JObject [("autoTranslatePlatforms",
                JBool (HotkeySettings.autoTranslatePlatforms (ExportData.settings d)))]);
     ("exportedAt", JString (ExportData.exportedAt d));
     ("version", JString (ExportData.version d))].

(** Property access [obj[name]] on the fields of a JSON object. *)
Fixpoint json_get (name : string) (fields : list (string * Json)) : option Json :=
  match fields with
  | [] => None
  | (k, v) :: rest => if String.eqb k name then Some v else json_get name rest
  end.

Definition json_string (name : string) (fields : list (string * Json))
    : option string :=
  match json_get name fields with
  | Some (JString s) => Some s
  | _ => None
  end.

Definition json_bool (name : string) (fields : list (string * Json))
    : option bool :=
  match json_get name fields with
  | Some (JBool b) => Some b
  | _ => None
  end.

(** Modelled from the spec: the import dialog ([./Hotkeys/Import]) is not
    part of the sources; the spec says the import file "accepts the export
    format or a bare Binding[]".  A binding is read back field by field; a
    value that is not a binding object is rejected. *)
Definition hotkey_of_json (j : Json) : option Hotkey.t :=
  match j with
  | JObject fs =>
      i ← json_string "id" fs;
      s ← json_string "section" fs;
      e ← json_string "element" fs;
      l ← json_string "label" fs;
      k ← json_string "key" fs;
      a ← json_bool "active" fs;
      Some (Hotkey.mk i s e l k (json_string "mac" fs) a
              (json_string "subgroup" fs) (json_string "description" fs))
  | _ => None
  end.

(** Modelled from the spec: reading a list of bindings. *)
Definition hotkeys_of_json (items : list Json) : option (list Hotkey.t) :=
  mapM hotkey_of_json items.

(** Modelled from the spec: what the import dialog hands to the import
    handler for a file holding [j]: a bare array is the legacy format, an
    object is the envelope with optional [hotkeys] and [settings]. *)
Definition read_import_file (j : Json) : option Imported :=
  match j with
  | JArray items => ImportedArray <$> hotkeys_of_json items
  | JObject fs =>
      let settings :=
        match json_get "settings" fs with
        | Some (JObject sfs) =>
            Some (ImportSettings.mk (json_bool "autoTranslatePlatforms" sfs))
        | _ => None
        end in
      match json_get "hotkeys" fs with
      | Some (JArray items) =>
          hs ← hotkeys_of_json items;
          Some (ImportedEnvelope (ImportData.mk (Some hs) settings))
      | Some _ => None
      | None => Some (ImportedEnvelope (ImportData.mk None settings))
      end
  | _ => None
  end.

(** ** Component state of [HotkeysManager] *)

Module DuplicateConfirmDialog.
(** [interface DuplicateConfirmDialog] *)
Record t : Type := mk {
  open : bool;
  hotkeyId : option string;
  newKey : option string;
  conflictingHotkeys : list Hotkey.t;
}.

(** The closed dialog, as both the initial state and the cancel and
    confirm handlers write it. *)
Definition closed : t := mk false None None [].
End DuplicateConfirmDialog.

Module UI.
(** The [useState] cells of the manager component. *)
Record t : Type := mk {
  hotkeys : list Hotkey.t;
  isLoading : bool;
  editingHotkeyId : option string;
  globalEnabled : bool;
  dirtyState : DirtyState;
  importDialogOpen : bool;
  autoTranslatePlatforms : bool;
  duplicateConfirmDialog : DuplicateConfirmDialog.t;
}.

(** The state the component mounts with. *)
Definition initial : t :=
  mk [] false None true ∅ false true DuplicateConfirmDialog.closed.

Definition setHotkeys (v : list Hotkey.t) (u : t) : t :=
  mk v (isLoading u) (editingHotkeyId u) (globalEnabled u) (dirtyState u)
     (importDialogOpen u) (autoTranslatePlatforms u) (duplicateConfirmDialog u).

Definition setIsLoading (v : bool) (u : t) : t :=
  mk (hotkeys u) v (editingHotkeyId u) (globalEnabled u) (dirtyState u)
     (importDialogOpen u) (autoTranslatePlatforms u) (duplicateConfirmDialog u).

Definition setEditingHotkeyId (v : option string) (u : t) : t :=
  mk (hotkeys u) (isLoading u) v (globalEnabled u) (dirtyState u)
     (importDialogOpen u) (autoTranslatePlatforms u) (duplicateConfirmDialog u).

Definition setGlobalEnabled (v : bool) (u : t) : t :=
  mk (hotkeys u) (isLoading u) (editingHotkeyId u) v (dirtyState u)
     (importDialogOpen u) (autoTranslatePlatforms u) (duplicateConfirmDialog u).

Definition setDirtyState (v : DirtyState) (u : t) : t :=
  mk (hotkeys u) (isLoading u) (editingHotkeyId u) (globalEnabled u) v
     (importDialogOpen u) (autoTranslatePlatforms u) (duplicateConfirmDialog u).

Definition setAutoTranslatePlatforms (v : bool) (u : t) : t :=
  mk (hotkeys u) (isLoading u) (editingHotkeyId u) (globalEnabled u)
     (dirtyState u) (importDialogOpen u) v (duplicateConfirmDialog u).

Definition setDuplicateConfirmDialog (v : DuplicateConfirmDialog.t) (u : t) : t :=
  mk (hotkeys u) (isLoading u) (editingHotkeyId u) (globalEnabled u)
     (dirtyState u) (importDialogOpen u) (autoTranslatePlatforms u) v.
End UI.

(** ** The world a handler runs in *)

Module World.
(** The component state, the state of the remote store (of a type [S] the
    server chooses), and what the component has emitted so far: request
    bodies sent to [updateHotkeys], toasts shown, files offered for
    download.  The three logs grow at the end. *)
Record t (S : Type) : Type := mk {
  ui : UI.t;
  remote : S;
  sent : list RequestBody.t;
  toasts : list Toast.t;
  downloads : list Json;
}.
Arguments mk {S} _ _ _ _ _.
Arguments ui {S} _.
Arguments remote {S} _.
Arguments sent {S} _.
Arguments toasts {S} _.
Arguments downloads {S} _.
End World.

Module Env.
(** Everything the component reads from outside itself. *)
Record t (S : Type) : Type := mk {
  (* the catalogs imported from [./Hotkeys/defaults] *)
  DEFAULT_HOTKEYS : list Hotkey.t;
  HOTKEY_SECTIONS : list SectionInfo.t;
  (* [window.APP_SETTINGS?.user?.customHotkeys] and
     [window.APP_SETTINGS?.user?.hotkeySettings?.autoTranslatePlatforms] *)
  cachedCustomHotkeys : option CustomHotkeys;
  cachedAutoTranslatePlatforms : option bool;
  (* the identifier [isReset], read by the error handler of
     [saveHotkeysToAPI] and declared nowhere in the module: its value when
     the surrounding program binds it, [None] when it is unbound *)
  isReset : option bool;
  (* the answer to [confirm(message)] *)
  confirm : string → bool;
  (* [new Date().toISOString()] *)
  now : string;
  (* [api.callApi("updateHotkeys", { body })] and [api.callApi("hotkeys")]:
     how the call settles and what it does to the remote store *)
  callUpdateHotkeys : RequestBody.t → S → Settled (option ApiResponse.t) * S;
  callHotkeys : S → Settled (option ApiResponse.t) * S;
}.
Arguments mk {S} _ _ _ _ _ _ _ _ _.
Arguments DEFAULT_HOTKEYS {S} _.
Arguments HOTKEY_SECTIONS {S} _.
Arguments cachedCustomHotkeys {S} _.
Arguments cachedAutoTranslatePlatforms {S} _.
Arguments isReset {S} _.
Arguments confirm {S} _ _.
Arguments now {S} _.
Arguments callUpdateHotkeys {S} _ _ _.
Arguments callHotkeys {S} _ _.
End Env.

(** ** A monad for handlers: state over the world, with exceptions *)

Inductive Completion (A : Type) : Type :=
  | Normal (a : A)
  | Throw (e : Thrown.t).
Arguments Normal {A} a.
Arguments Throw {A} e.

Definition M (S A : Type) : Type := World.t S → Completion A * World.t S.

Definition ret {S A} (a : A) : M S A := fun w => (Normal a, w).

Definition bind {S A B} (m : M S A) (k : A → M S B) : M S B :=
  fun w =>
    match m w with
    | (Normal a, w') => k a w'
    | (Throw e, w') => (Throw e, w')
    end.

Definition throw {S A} (e : Thrown.t) : M S A := fun w => (Throw e, w).

(** [try { body } catch (error) { handler }] *)
Definition try_catch {S A} (body : M S A) (handler : Thrown.t → M S A) : M S A :=
  fun w =>
    match body w with
    | (Normal a, w') => (Normal a, w')
    | (Throw e, w') => handler e w'
    end.

(** [try { body } finally { cleanup }] *)
Definition try_finally {S A} (body : M S A) (cleanup : M S unit) : M S A :=
  fun w =>
    match body w with
    | (c, w') =>
        match cleanup w' with
        | (Normal _, w'') => (c, w'')
        | (Throw e, w'') => (Throw e, w'')
        end
    end.

Declare Scope handler_scope.
Delimit Scope handler_scope with handler.
Notation "x <- m ;; k" := (bind m (fun x => k))
  (at level 100, m at next level, right associativity) : handler_scope.
Notation "m ;; k" := (bind m (fun _ => k))
  (at level 100, right associativity) : handler_scope.
Open Scope handler_scope.

(** A state setter of the component, [setX(v)]. *)
Definition set {S} (f : UI.t → UI.t) : M S unit :=
  fun w =>
    (Normal tt,
     World.mk (f (World.ui w)) (World.remote w) (World.sent w)
       (World.toasts w) (World.downloads w)).

(** [toast.show({ message, type })] *)
Definition toast_show {S} (message : string) (type : ToastType) : M S unit :=
  fun w =>
    (Normal tt,
     World.mk (World.ui w) (World.remote w) (World.sent w)
       (World.toasts w ++ [Toast.mk message type]) (World.downloads w)).

(** Offering a file for download. *)
Definition download {S} (file : Json) : M S unit :=
  fun w =>
    (Normal tt,
     World.mk (World.ui w) (World.remote w) (World.sent w)
       (World.toasts w) (World.downloads w ++ [file])).

(** [await api.callApi("updateHotkeys", { body })] *)
Definition await_updateHotkeys {S} (env : Env.t S) (body : RequestBody.t)
    : M S (option ApiResponse.t) :=
  fun w =>
    let '(settled, remote') := Env.callUpdateHotkeys env body (World.remote w) in
    let w' := World.mk (World.ui w) remote' (World.sent w ++ [body])
                (World.toasts w) (World.downloads w) in
    match settled with
    | Fulfilled response => (Normal response, w')
    | Rejected e => (Throw e, w')
    end.

(** [await api.callApi("hotkeys")] *)
Definition await_hotkeys {S} (env : Env.t S) : M S (option ApiResponse.t) :=
  fun w =>
    let '(settled, remote') := Env.callHotkeys env (World.remote w) in
    let w' := World.mk (World.ui w) remote' (World.sent w)
                (World.toasts w) (World.downloads w) in
    match settled with
    | Fulfilled response => (Normal response, w')
    | Rejected e => (Throw e, w')
    end.

(** Reading the identifier [isReset]. *)
Definition read_isReset {S} (env : Env.t S) : M S bool :=
  match Env.isReset env with
  | Some b => ret b
  | None => throw (Thrown.ReferenceError "isReset")
  end.

(** ** The manager component *)

Module HotkeysManager.
Section Handlers.
Context {S : Type} (env : Env.t S).

(** The [customHotkeys] object that [saveHotkeysToAPI] builds with
    [currentHotkeys.forEach]: later bindings overwrite earlier ones that
    have the same [section:element] key. *)
Definition toCustomHotkeys (currentHotkeys : list Hotkey.t) : CustomHotkeys :=
  foldl (fun customHotkeys hotkey =>
           <[lookupKey hotkey :=
               CustomSetting.mk (Hotkey.key hotkey) (Hotkey.active hotkey)
                 (Some (Hotkey.label hotkey))]> customHotkeys)
        ∅ currentHotkeys.

(** The [requestBody] of [saveHotkeysToAPI]. *)
Definition requestBody (currentHotkeys : list Hotkey.t)
    (currentSettings : HotkeySettings.t) : RequestBody.t :=
  RequestBody.mk (toCustomHotkeys currentHotkeys)
    (if Nat.eqb (length currentHotkeys) 0
     then HotkeySettings.mk true
     else currentSettings).

(** [err.response?.status === n] *)
Definition status_is (error : Thrown.t) (n : Z) : bool :=
  match Thrown.response error ≫= HttpResponse.status with
  | Some s => Z.eqb s n
  | None => false
  end.

(** [err.response?.status >= n] *)
Definition status_ge (error : Thrown.t) (n : Z) : bool :=
  match Thrown.response error ≫= HttpResponse.status with
  | Some s => Z.leb n s
  | None => false
  end.

(** The [errorMessage] computed by the [catch] block of
    [saveHotkeysToAPI], given the value of [isReset]. *)
Definition errorMessage (isReset : bool) (error : Thrown.t) : string :=
  let fallback :=
    "Failed to " +:+ (if isReset then "reset" else "save") +:+ " hotkeys" in
  if Thrown.isObject error && Thrown.hasResponse error then
    if status_is error 400 then
      or_else (Thrown.response error ≫= HttpResponse.data_error)
        ("Invalid " +:+
         (if isReset then "reset request" else "hotkeys configuration"))
    else if status_is error 401 then "Authentication required"
    else if status_ge error 500 then "Server error - please try again later"
    else fallback
  else if Thrown.isObject error && Thrown.hasRequest error then
    "Network error - please check your connection"
  else fallback.

(** [saveHotkeysToAPI(currentHotkeys, currentSettings)] *)
Definition saveHotkeysToAPI (currentHotkeys : list Hotkey.t)
    (currentSettings : HotkeySettings.t) : M S SaveResult.t :=
  try_catch
    (response <- await_updateHotkeys env
                   (requestBody currentHotkeys currentSettings) ;;
     if truthy_opt (response ≫= ApiResponse.error)
     then ret (SaveResult.mk false (response ≫= ApiResponse.error) response)
     else ret (SaveResult.mk true None response))
    (fun error =>
       isReset <- read_isReset env ;;
       ret (SaveResult.mk false (Some (errorMessage isReset error)) None)).

(** [loadHotkeysFromAPI()] *)
Definition loadHotkeysFromAPI : M S unit :=
  let cached := default ∅ (Env.cachedCustomHotkeys env) in
  try_finally
    (try_catch
       (set (UI.setIsLoading true) ;;
        response <- await_hotkeys env ;;
        match response ≫= ApiResponse.custom_hotkeys with
        | Some custom_hotkeys =>
            set (UI.setHotkeys
                   (updateHotkeysWithCustomSettings
                      (Env.DEFAULT_HOTKEYS env) custom_hotkeys))
        | None =>
            set (UI.setHotkeys
                   (updateHotkeysWithCustomSettings
                      (Env.DEFAULT_HOTKEYS env) cached))
        end ;;
        set (UI.setAutoTranslatePlatforms
               (default true (Env.cachedAutoTranslatePlatforms env))))
       (fun error =>
          set (UI.setHotkeys
                 (updateHotkeysWithCustomSettings
                    (Env.DEFAULT_HOTKEYS env) cached)) ;;
          toast_show
            "Could not load custom hotkeys from server, using cached settings"
            ToastError))
    (set (UI.setIsLoading false)).

(** [hasUnsavedChanges], computed at render time from [dirtyState]. *)
Definition hasUnsavedChanges (r : UI.t) : bool :=
  existsb (fun key => negb (String.eqb key "settings"))
    (elements (dom (UI.dirtyState r))).

(** [error instanceof Error ? error.message : "Unknown error"] *)
Definition message_of (error : Thrown.t) : string :=
  if Thrown.instanceofError error then Thrown.message error
  else "Unknown error".

(** The [confirmMessage] of [handleResetToDefaults], from the state the
    handler closed over. *)
Definition confirmMessage (r : UI.t) : string :=
  let hasChanges :=
    hasUnsavedChanges r
    || bool_decide (UI.dirtyState r !! "settings" = Some true) in
  if hasChanges
  then "Are you sure you want to reset all hotkeys and settings to their default values? This will discard all unsaved changes and cannot be undone."
  else "Are you sure you want to reset all hotkeys and settings to their default values? This cannot be undone.".

(** [handleResetToDefaults()]; [r] is the state the handler closed over. *)
Definition handleResetToDefaults (r : UI.t) : M S unit :=
  if negb (Env.confirm env (confirmMessage r)) then ret tt
  else
    set (UI.setIsLoading true) ;;
    try_finally
      (try_catch
         (set (UI.setHotkeys (Env.DEFAULT_HOTKEYS env)) ;;
          set (UI.setGlobalEnabled true) ;;
          set (UI.setAutoTranslatePlatforms true) ;;
          set (UI.setDirtyState ∅) ;;
          result <- saveHotkeysToAPI []
                      (HotkeySettings.mk (UI.autoTranslatePlatforms r)) ;;
          if SaveResult.ok result
          then toast_show
                 "All hotkeys and settings have been reset to defaults and saved"
                 ToastInfo
          else toast_show
                 ("Failed to save reset hotkeys: " +:+
                  or_else (SaveResult.error result) "Unknown error")
                 ToastError)
         (fun error =>
            toast_show ("Error resetting hotkeys: " +:+ message_of error)
              ToastError))
      (set (UI.setIsLoading false)).

(** [hotkeys.find((h) => h.id === hotkeyId)] *)
Definition findHotkey (hotkeys : list Hotkey.t) (hotkeyId : string)
    : option Hotkey.t :=
  find (fun h => String.eqb (Hotkey.id h) hotkeyId) hotkeys.

(** [updateHotkeyKey(hotkeyId, newKey)] *)
Definition updateHotkeyKey (r : UI.t) (hotkeyId newKey : string) : M S unit :=
  match findHotkey (UI.hotkeys r) hotkeyId with
  | None => ret tt
  | Some hotkey =>
      let updatedHotkeys :=
        map (fun h =>
               if String.eqb (Hotkey.id h) hotkeyId
               then Hotkey.with_mac newKey (Hotkey.with_key newKey h)
               else h)
            (UI.hotkeys r) in
      set (UI.setHotkeys updatedHotkeys) ;;
      set (UI.setDirtyState (<[Hotkey.section hotkey := true]> (UI.dirtyState r))) ;;
      set (UI.setEditingHotkeyId None)
  end.

(** [handleSaveHotkey(hotkeyId, newKey)] *)
Definition handleSaveHotkey (r : UI.t) (hotkeyId newKey : string) : M S unit :=
  match findHotkey (UI.hotkeys r) hotkeyId with
  | None => ret tt
  | Some hotkey =>
      let conflictingHotkeys :=
        getGlobalDuplicates (UI.hotkeys r) hotkeyId newKey in
      if Nat.ltb 0 (length conflictingHotkeys)
      then set (UI.setDuplicateConfirmDialog
                  (DuplicateConfirmDialog.mk true (Some hotkeyId) (Some newKey)
                     conflictingHotkeys))
      else updateHotkeyKey r hotkeyId newKey
  end.

(** [handleConfirmDuplicate()] *)
Definition handleConfirmDuplicate (r : UI.t) : M S unit :=
  let dialog := UI.duplicateConfirmDialog r in
  set (UI.setDuplicateConfirmDialog DuplicateConfirmDialog.closed) ;;
  match DuplicateConfirmDialog.hotkeyId dialog,
        DuplicateConfirmDialog.newKey dialog with
  | Some hotkeyId, Some newKey =>
      if truthy hotkeyId && truthy newKey
      then updateHotkeyKey r hotkeyId newKey
      else ret tt
  | _, _ => ret tt
  end.

(** [handleCancelDuplicate()] *)
Definition handleCancelDuplicate (r : UI.t) : M S unit :=
  set (UI.setDuplicateConfirmDialog DuplicateConfirmDialog.closed).

(** The text a template literal prints for an optional string. *)
Definition template (o : option string) : string := default "undefined" o.

(** [handleSaveSection(sectionId)] *)
Definition handleSaveSection (r : UI.t) (sectionId : string) : M S unit :=
  set (UI.setIsLoading true) ;;
  try_finally
    (try_catch
       (result <- saveHotkeysToAPI (UI.hotkeys r)
                    (HotkeySettings.mk (UI.autoTranslatePlatforms r)) ;;
        if SaveResult.ok result then
          set (UI.setDirtyState (delete sectionId (UI.dirtyState r))) ;;
          let sectionName :=
            if String.eqb sectionId "settings" then Some "Settings"
            else SectionInfo.title <$>
                   find (fun s => String.eqb (SectionInfo.id s) sectionId)
                     (Env.HOTKEY_SECTIONS env) in
          toast_show (template sectionName +:+ " hotkeys saved successfully")
            ToastInfo
        else
          toast_show
            ("Failed to save: " +:+
             or_else (SaveResult.error result) "Unknown error")
            ToastError)
       (fun error =>
          toast_show ("Error saving: " +:+ message_of error) ToastError))
    (set (UI.setIsLoading false)).

(** The [exportData] object of [handleExportHotkeys]. *)
Definition exportData (r : UI.t) : ExportData.t :=
  ExportData.mk (UI.hotkeys r)
    (HotkeySettings.mk (UI.autoTranslatePlatforms r))
    (Env.now env) "1.0".

(** [handleExportHotkeys()] *)
Definition handleExportHotkeys (r : UI.t) : M S unit :=
  download (export_to_json (exportData r)) ;;
  toast_show "Hotkeys exported successfully" ToastInfo.

(** [handleImportHotkeys(importedData)] *)
Definition handleImportHotkeys (r : UI.t) (importedData : Imported) : M S unit :=
  try_finally
    (try_catch
       (set (UI.setIsLoading true) ;;
        let importedHotkeys :=
          match importedData with
          | ImportedArray hs => hs
          | ImportedEnvelope d => default [] (ImportData.hotkeys d)
          end in
        let importedSettings :=
          match importedData with
          | ImportedArray _ => ImportSettings.mk None
          | ImportedEnvelope d =>
              default (ImportSettings.mk None) (ImportData.settings d)
          end in
        set (UI.setHotkeys importedHotkeys) ;;
        match ImportSettings.autoTranslatePlatforms importedSettings with
        | Some v => set (UI.setAutoTranslatePlatforms v)
        | None => ret tt
        end ;;
        let allEnabled := forallb Hotkey.active importedHotkeys in
        set (UI.setGlobalEnabled allEnabled) ;;
        let settingsToSave :=
          HotkeySettings.mk
            (default (UI.autoTranslatePlatforms r)
               (ImportSettings.autoTranslatePlatforms importedSettings)) in
        result <- saveHotkeysToAPI importedHotkeys settingsToSave ;;
        (if negb (SaveResult.ok result)
         then throw (Thrown.Error
                       (or_else (SaveResult.error result)
                          "Failed to save imported hotkeys"))
         else ret tt) ;;
        loadHotkeysFromAPI ;;
        set (UI.setDirtyState ∅) ;;
        toast_show "Hotkeys imported successfully" ToastInfo)
       (fun error =>
          toast_show ("Error importing hotkeys: " +:+ message_of error)
            ToastError))
    (set (UI.setIsLoading false)).

(** [handleToggleHotkey(hotkeyId)] *)
Definition handleToggleHotkey (r : UI.t) (hotkeyId : string) : M S unit :=
  let updatedHotkeys :=
    map (fun hotkey =>
           if String.eqb (Hotkey.id hotkey) hotkeyId
           then Hotkey.with_active (negb (Hotkey.active hotkey)) hotkey
           else hotkey)
        (UI.hotkeys r) in
  set (UI.setHotkeys updatedHotkeys) ;;
  match findHotkey (UI.hotkeys r) hotkeyId with
  | Some hotkey =>
      set (UI.setDirtyState
             (<[Hotkey.section hotkey := true]> (UI.dirtyState r)))
  | None => ret tt
  end ;;
  let allEnabled := forallb Hotkey.active updatedHotkeys in
  set (UI.setGlobalEnabled allEnabled).

(** [handleCancelEdit()] *)
Definition handleCancelEdit (r : UI.t) : M S unit :=
  set (UI.setEditingHotkeyId None).

(** [getSectionTitle(sectionId)] *)
Definition getSectionTitle (sectionId : string) : string :=
  match find (fun s => String.eqb (SectionInfo.id s) sectionId)
          (Env.HOTKEY_SECTIONS env) with
  | Some section => SectionInfo.title section
  | None => sectionId
  end.

(** [getHotkeysBySection(sectionId)], from the state of the render. *)
Definition getHotkeysBySection (r : UI.t) (sectionId : string) : list Hotkey.t :=
  filter (fun hotkey => Hotkey.section hotkey = sectionId) (UI.hotkeys r).

(** The bindings the page shows: for each section of the catalog, in its
    order, the list handed to that section's card (the skeleton shown
    instead while loading holds no binding: it is shown only when the list
    is empty). *)
Definition renderedHotkeys (r : UI.t) : list (string * list Hotkey.t) :=
  map (fun section =>
         (SectionInfo.id section, getHotkeysBySection r (SectionInfo.id section)))
      (Env.HOTKEY_SECTIONS env).

(** Running a handler as React does: the handler closes over the state of
    the last render and its effects are applied to the world. *)
Definition dispatch (handler : UI.t → M S unit) (w : World.t S) : World.t S :=
  snd (handler (World.ui w) w).

End Handlers.
End HotkeysManager.

(** ** The row component and its key recorder *)

Module KeyboardEvent.
(** The fields of [e.nativeEvent] the recorder reads. *)
Record t : Type := mk {
  key : string;
  ctrlKey : bool;
  shiftKey : bool;
  altKey : bool;
  metaKey : bool;
}.
End KeyboardEvent.

Module HotkeyItem.

(** The [useState] cells of one row. *)
Record State : Type := mkState {
  editedKey : string;
  keyRecordingMode : bool;
  error : string;
}.

(** [startRecordingKeys()], also what entering edit mode does. *)
Definition startRecordingKeys (st : State) : State := mkState "" true "".

(** [["Control", "Shift", "Alt", "Meta"].includes(key)] *)
Definition isModifierKey (key : string) : bool :=
  existsb (String.eqb key) ["Control"; "Shift"; "Alt"; "Meta"].

Section Recorder.
(** [String.prototype.toLowerCase] *)
Variable toLowerCase : string → string.

(** The [keyCombo] array built by [handleKeyPress], push by push. *)
Definition keyCombo (e : KeyboardEvent.t) : list string :=
  let keyCombo : list string := [] in
  let keyCombo := if KeyboardEvent.ctrlKey e then keyCombo ++ ["ctrl"] else keyCombo in
  let keyCombo := if KeyboardEvent.shiftKey e then keyCombo ++ ["shift"] else keyCombo in
  let keyCombo := if KeyboardEvent.altKey e then keyCombo ++ ["alt"] else keyCombo in
  let keyCombo := if KeyboardEvent.metaKey e then keyCombo ++ ["meta"] else keyCombo in
  keyCombo ++ [toLowerCase (KeyboardEvent.key e)].

(** [handleKeyPress(e)] *)
Definition handleKeyPress (st : State) (e : KeyboardEvent.t) : State :=
  if negb (keyRecordingMode st) then st
  else if isModifierKey (KeyboardEvent.key e) then st
  else mkState (join "+" (keyCombo e)) false "".

(** The keydown events of a session, handled one after the other. *)
Definition handleKeyPresses (st : State) (events : list KeyboardEvent.t) : State :=
  foldl handleKeyPress st events.

End Recorder.

(** Lower-casing of the letters [A] to [Z], for running the recorder on
    keys written in ASCII. *)
Definition ascii_lower (c : Ascii.ascii) : Ascii.ascii :=
  let n := Ascii.nat_of_ascii c in
  if Nat.leb 65 n && Nat.leb n 90 then Ascii.ascii_of_nat (n + 32) else c.

Fixpoint ascii_toLowerCase (s : string) : string :=
  match s with
  | EmptyString => EmptyString
  | String c rest => String (ascii_lower c) (ascii_toLowerCase rest)
  end.

End HotkeyItem.

(** ** The help overlay: which sections to show *)

Module HotkeyHelp.

(** [interface UrlMapping]; the regular expression is represented by its
    [test] on a string, and [section] is a name or an array of names. *)
Inductive MappingSection : Type :=
  | OneSection (name : string)
  | SectionArray (names : list string).

Record UrlMapping : Type := mkUrlMapping {
  regex_test : string → bool;
  section : MappingSection;
}.

(** The optional argument [sectionOrUrl?: string | string[]]. *)
Inductive SectionOrUrl : Type :=
  | Omitted
  | Text (s : string)
  | Names (names : list string).

(** [[...new Set(xs)]]: each value once, in the order of first occurrence. *)
Fixpoint uniq (xs : list string) : list string :=
  match xs with
  | [] => []
  | x :: rest => x :: filter (fun y => y ≠ x) (uniq rest)
  end.

Section Help.
(** The catalogs imported from [./defaults] and the URL of the page,
    [window.location.pathname + window.location.search]. *)
Variables (sections : list SectionInfo.t) (urlMappings : list UrlMapping)
  (currentUrl : string).

(** The loop [for (const mapping of urlMappings)] over a URL. *)
Definition sectionsOfUrl (url : string) : list string :=
  foldl (fun sectionsToShow mapping =>
           if regex_test mapping url then
             match section mapping with
             | SectionArray names => sectionsToShow ++ names
             | OneSection name => sectionsToShow ++ [name]
             end
           else sectionsToShow)
        [] urlMappings.

(** [determineSectionsToShow(sectionOrUrl)] *)
Definition determineSectionsToShow (sectionOrUrl : SectionOrUrl) : list string :=
  let sectionsToShow :=
    match sectionOrUrl with
    | Text s =>
        if truthy s then
          if String.prefix "http" s || String.prefix "/" s
          then sectionsOfUrl s
          else [s]
        else sectionsOfUrl currentUrl
    | Names names => names
    | Omitted => sectionsOfUrl currentUrl
    end in
  let sectionsToShow := uniq sectionsToShow in
  if Nat.eqb (length sectionsToShow) 0
  then map SectionInfo.id sections
  else sectionsToShow.

End Help.
End HotkeyHelp.

(** ** Auxiliary definitions for the statements *)

(** The list [updateHotkeyKey] writes: every binding with the given id gets
    the new key as [key] and [mac]. *)
Definition rekeyed (hotkeyId newKey : string) (hotkeys : list Hotkey.t)
    : list Hotkey.t :=
  map (fun h =>
         if String.eqb (Hotkey.id h) hotkeyId
         then Hotkey.with_mac newKey (Hotkey.with_key newKey h)
         else h)
      hotkeys.

(** The entry [saveHotkeysToAPI] writes for one binding. *)
Definition entry_of (h : Hotkey.t) : CustomSetting.t :=
  CustomSetting.mk (Hotkey.key h) (Hotkey.active h) (Some (Hotkey.label h)).

(** Whether the [updateHotkeys] call with [body] succeeds when the store is
    in state [s]: the promise is fulfilled and the response carries no
    (truthy) [error]. *)
Definition updateAccepted {S} (env : Env.t S) (body : RequestBody.t) (s : S)
    : bool :=
  match fst (Env.callUpdateHotkeys env body s) with
  | Fulfilled response => negb (truthy_opt (response ≫= ApiResponse.error))
  | Rejected _ => false
  end.

(** The overrides a reload merges into the defaults when the store is in
    state [s]: those of the response, or the cached ones when the call is
    rejected or the response has none. *)
Definition reloadedOverrides {S} (env : Env.t S) (s : S) : CustomHotkeys :=
  let cached := default ∅ (Env.cachedCustomHotkeys env) in
  match fst (Env.callHotkeys env s) with
  | Fulfilled response => default cached (response ≫= ApiResponse.custom_hotkeys)
  | Rejected _ => cached
  end.

(** The new key has been applied to the bindings with the given id:
    position by position, such a binding has [key] and [mac] equal to the
    new key and its other fields as before, and any other binding is as
    before. *)
Definition keyApplied (hotkeyId newKey : string)
    (hotkeys hotkeys' : list Hotkey.t) : Prop :=
  Forall2
    (fun h h' =>
       if decide (Hotkey.id h = hotkeyId)
       then Hotkey.key h' = newKey
            ∧ Hotkey.mac h' = Some newKey
            ∧ Hotkey.id h' = Hotkey.id h
            ∧ Hotkey.section h' = Hotkey.section h
            ∧ Hotkey.element h' = Hotkey.element h
            ∧ Hotkey.label h' = Hotkey.label h
            ∧ Hotkey.active h' = Hotkey.active h
            ∧ Hotkey.subgroup h' = Hotkey.subgroup h
            ∧ Hotkey.description h' = Hotkey.description h
       else h' = h)
    hotkeys hotkeys'.

(** A binding as the page can make it from a default: [key], [active] and
    [mac] may differ, the [label] too when it is not empty. *)
Definition edited (d h : Hotkey.t) : Prop :=
  Hotkey.id h = Hotkey.id d
  ∧ Hotkey.section h = Hotkey.section d
  ∧ Hotkey.element h = Hotkey.element d
  ∧ Hotkey.subgroup h = Hotkey.subgroup d
  ∧ Hotkey.description h = Hotkey.description d
  ∧ (Hotkey.label h = "" → Hotkey.label d = "").

(** Two bindings that agree in every field but, possibly, [mac]. *)
Definition same_but_mac (h h' : Hotkey.t) : Prop :=
  Hotkey.id h' = Hotkey.id h
  ∧ Hotkey.section h' = Hotkey.section h
  ∧ Hotkey.element h' = Hotkey.element h
  ∧ Hotkey.label h' = Hotkey.label h
  ∧ Hotkey.key h' = Hotkey.key h
  ∧ Hotkey.active h' = Hotkey.active h
  ∧ Hotkey.subgroup h' = Hotkey.subgroup h
  ∧ Hotkey.description h' = Hotkey.description h.

(** A binding that differs from a default in [key], [active] and a
    non-empty [label] at most. *)
Definition customised (d h : Hotkey.t) : Prop :=
  Hotkey.id h = Hotkey.id d
  ∧ Hotkey.section h = Hotkey.section d
  ∧ Hotkey.element h = Hotkey.element d
  ∧ Hotkey.mac h = Hotkey.mac d
  ∧ Hotkey.subgroup h = Hotkey.subgroup d
  ∧ Hotkey.description h = Hotkey.description d
  ∧ (Hotkey.label h = "" → Hotkey.label d = "").

(** The list [handleToggleHotkey] writes: every binding with the given id
    has its [active] flag negated. *)
Definition toggled (hotkeyId : string) (hotkeys : list Hotkey.t)
    : list Hotkey.t :=
  map (fun hotkey =>
         if String.eqb (Hotkey.id hotkey) hotkeyId
         then Hotkey.with_active (negb (Hotkey.active hotkey)) hotkey
         else hotkey)
      hotkeys.

(** The binding list an import takes from its argument. *)
Definition importedHotkeys (importedData : Imported) : list Hotkey.t :=
  match importedData with
  | ImportedArray hs => hs
  | ImportedEnvelope d => default [] (ImportData.hotkeys d)
  end.

(** The setting an import takes from its argument, when it carries one. *)
Definition importedSetting (importedData : Imported) : option bool :=
  match importedData with
  | ImportedArray _ => None
  | ImportedEnvelope d =>
      ImportData.settings d ≫= ImportSettings.autoTranslatePlatforms
  end.

(** The sections a mapping names. *)
Definition namedSections (mapping : HotkeyHelp.UrlMapping) : list string :=
  match HotkeyHelp.section mapping with
  | HotkeyHelp.OneSection name => [name]
  | HotkeyHelp.SectionArray names => names
  end.

(** The URL the overlay maps to sections for a given argument, when it
    treats the argument as a URL or has none. *)
Definition urlOf (currentUrl : string) (sectionOrUrl : HotkeyHelp.SectionOrUrl)
    : option string :=
  match sectionOrUrl with
  | HotkeyHelp.Omitted => Some currentUrl
  | HotkeyHelp.Text s =>
      if truthy s then
        if String.prefix "http" s || String.prefix "/" s then Some s else None
      else Some currentUrl
  | HotkeyHelp.Names _ => None
  end.

(** [disabled={!editedKey || !!error}] on the Apply button of a row. *)
Definition applyDisabled (st : HotkeyItem.State) : bool :=
  negb (truthy (HotkeyItem.editedKey st)) || truthy (HotkeyItem.error st).

(** ** Sample data: a small catalog and two servers *)

Module Demo.

Definition undo : Hotkey.t :=
  Hotkey.mk "annotation:undo" "annotation" "undo" "Undo" "ctrl+z"
    None true None None.

Definition redo : Hotkey.t :=
  Hotkey.mk "annotation:redo" "annotation" "redo" "Redo" "ctrl+shift+z"
    None true None None.

Definition submit : Hotkey.t :=
  Hotkey.mk "annotation:submit" "annotation" "submit" "Submit" "ctrl+enter"
    None false (Some "actions") (Some "Submit the annotation").

Definition defaults : list Hotkey.t := [undo; redo; submit].

(** A second binding for the same action: same section and element as
    [undo], another id and key. *)
Definition undo_alt : Hotkey.t :=
  Hotkey.mk "annotation:undo-alt" "annotation" "undo" "Undo (alternative)"
    "ctrl+u" None true None None.

Definition sections : list SectionInfo.t :=
  [SectionInfo.mk "annotation" "Annotation" None].

Definition clock : string := "2025-01-01T00:00:00.000Z".

(** A store that keeps the last body it was sent and returns it. *)
Definition Store : Type := option RequestBody.t.

Definition store_update (body : RequestBody.t) (s : Store)
    : Settled (option ApiResponse.t) * Store :=
  (Fulfilled
     (Some (ApiResponse.mk (Some (RequestBody.custom_hotkeys body))
              (Some (RequestBody.hotkey_settings body)) None)),
   Some body).

Definition store_hotkeys (s : Store) : Settled (option ApiResponse.t) * Store :=
  (Fulfilled
     (Some (ApiResponse.mk (RequestBody.custom_hotkeys <$> s)
              (RequestBody.hotkey_settings <$> s) None)),
   s).

(** The error thrown by the HTTP client for a response with [status]. *)
Definition http_error (status : Z) : Thrown.t :=
  Thrown.mk true true (Some (HttpResponse.mk (Some status) None)) true true
    "Request failed".

(** A store that answers every update with the given status and keeps
    what it had. *)
Definition refuse_update (status : Z) (body : RequestBody.t) (s : Store)
    : Settled (option ApiResponse.t) * Store :=
  (Rejected (http_error status), s).

(** The environments leave [isReset] unbound, as the module does. *)
Definition env : Env.t Store :=
  Env.mk defaults sections None None None (fun _ => true) clock
    store_update store_hotkeys.

Definition env_refusing (status : Z) : Env.t Store :=
  Env.mk defaults sections None None None (fun _ => true) clock
    (refuse_update status) store_hotkeys.

(** The component just mounted, nothing stored remotely. *)
Definition mounted : World.t Store := World.mk UI.initial None [] [] [].

(** The page after the initial load. *)
Definition loaded : World.t Store :=
  HotkeysManager.dispatch (fun _ => HotkeysManager.loadHotkeysFromAPI env) mounted.

(** The user rebinds undo to [ctrl+y]. *)
Definition edited : World.t Store :=
  HotkeysManager.dispatch
    (fun r => HotkeysManager.handleSaveHotkey r "annotation:undo" "ctrl+y")
    loaded.

(** A binding of a section the catalog does not list. *)
Definition stray : Hotkey.t :=
  Hotkey.mk "video:play" "video" "play" "Play" "space" None true None None.

(** URL mappings of the help overlay: project pages and the data manager. *)
Definition urlMappings : list HotkeyHelp.UrlMapping :=
  [HotkeyHelp.mkUrlMapping (String.prefix "/projects")
     (HotkeyHelp.SectionArray ["annotation"; "regions"]);
   HotkeyHelp.mkUrlMapping (String.prefix "/projects/1/data")
     (HotkeyHelp.OneSection "annotation")].

(** The loaded page with one more binding, of a section the catalog does
    not list. *)
Definition with_stray : UI.t :=
  UI.setHotkeys (UI.hotkeys (World.ui loaded) ++ [stray]) (World.ui loaded).

(** A binding whose id is the empty string, as an imported file can
    provide, and a page holding it beside redo. *)
Definition unnamed : Hotkey.t :=
  Hotkey.mk "" "annotation" "skip" "Skip" "ctrl+k" None true None None.

Definition with_unnamed : World.t Store :=
  World.mk (UI.setHotkeys [unnamed; redo] UI.initial) None [] [] [].

(** A page holding two bindings with one [section:element] key, as an
    imported file can provide. *)
Definition colliding : World.t Store :=
  World.mk (UI.setHotkeys [undo; undo_alt] UI.initial) None [] [] [].

End Demo.

(** * Properties *)

Import HotkeysManager.

(** Closing a decidable goal on sample data by evaluation. *)
Ltac by_evaluation := apply (bool_decide_unpack _); vm_compute; exact I.

(** ** Strings as JavaScript sees them *)

Lemma truthy_true (s : string) : truthy s = true ↔ s ≠ "".
Proof.
  unfold truthy. rewrite negb_true_iff. split.
  - intros H ->. by rewrite String.eqb_refl in H.
  - intros H. by apply String.eqb_neq.
Qed.

Lemma truthy_false (s : string) : truthy s = false ↔ s = "".
Proof.
  unfold truthy. rewrite negb_false_iff. apply String.eqb_eq.
Qed.

(** ** Merging defaults with overrides *)

Lemma merge_length (defaults : list Hotkey.t) (custom : CustomHotkeys) :
  length (updateHotkeysWithCustomSettings defaults custom) = length defaults.
Proof. unfold updateHotkeysWithCustomSettings. by rewrite length_map. Qed.

(** C1, as amended.  The merge keeps the length and order of the default
    list.  A binding whose [section:element] key has an override takes
    [key] and [active] from it, and takes the override's [description] as
    its [label] when the description is present and not the empty string
    (otherwise the label stays); its other fields stay.  A binding without
    an override is returned as it is. *)
Theorem merge_override_wins (defaults : list Hotkey.t) (custom : CustomHotkeys) :
  Forall2
    (fun d h =>
       match custom !! lookupKey d with
       | Some o =>
           Hotkey.key h = CustomSetting.key o
           ∧ Hotkey.active h = CustomSetting.active o
           ∧ Hotkey.label h =
               (if truthy_opt (CustomSetting.description o)
                then default "" (CustomSetting.description o)
                else Hotkey.label d)
           ∧ Hotkey.id h = Hotkey.id d
           ∧ Hotkey.section h = Hotkey.section d
           ∧ Hotkey.element h = Hotkey.element d
           ∧ Hotkey.mac h = Hotkey.mac d
           ∧ Hotkey.subgroup h = Hotkey.subgroup d
           ∧ Hotkey.description h = Hotkey.description d
       | None => h = d
       end)
    defaults (updateHotkeysWithCustomSettings defaults custom).
Proof.
  unfold updateHotkeysWithCustomSettings.
  induction defaults as [|d defaults IH]; simpl; constructor; [|exact IH].
  destruct (custom !! lookupKey d) as [[k a [desc|]]|]; simpl; [|done..].
  destruct (truthy desc); simpl; done.
Qed.

(** C1 as stated fails on an override whose description is the empty
    string: the field is present, yet the merged binding keeps the label
    of the default instead of taking the description. *)
Lemma merge_empty_description_keeps_label :
  let custom : CustomHotkeys :=
    {[ "annotation:undo" := CustomSetting.mk "ctrl+shift+z" true (Some "") ]} in
  ∃ o d h,
    custom !! lookupKey Demo.undo = Some o
    ∧ CustomSetting.description o = Some d
    ∧ updateHotkeysWithCustomSettings [Demo.undo] custom = [h]
    ∧ Hotkey.label h = "Undo"
    ∧ Hotkey.label h ≠ d.
Proof.
  eexists _, _, _. split; [by vm_compute|]. split; [reflexivity|].
  split; [by vm_compute|]. split; [reflexivity|]. discriminate.
Qed.

(** The example of the specification: an override of undo wins. *)
Example merge_undo_override :
  Hotkey.key <$>
    updateHotkeysWithCustomSettings [Demo.undo]
      {[ "annotation:undo" := CustomSetting.mk "ctrl+shift+z" true None ]}
  = ["ctrl+shift+z"].
Proof. by vm_compute. Qed.

(** ** Conflict detection *)

Lemma elem_of_getGlobalDuplicates (hotkeys : list Hotkey.t)
    (hotkeyId newKey : string) (h : Hotkey.t) :
  h ∈ getGlobalDuplicates hotkeys hotkeyId newKey
  ↔ h ∈ hotkeys ∧ Hotkey.id h ≠ hotkeyId ∧ Hotkey.key h = newKey.
Proof. unfold getGlobalDuplicates. rewrite list_elem_of_filter. tauto. Qed.

(** Whether conflict detection reports anything, as a proposition. *)
Lemma getGlobalDuplicates_nonempty (hotkeys : list Hotkey.t)
    (hotkeyId newKey : string) :
  Nat.ltb 0 (length (getGlobalDuplicates hotkeys hotkeyId newKey)) = true
  ↔ ∃ h, h ∈ hotkeys ∧ Hotkey.id h ≠ hotkeyId ∧ Hotkey.key h = newKey.
Proof.
  rewrite Nat.ltb_lt. split.
  - intros Hlen.
    destruct (getGlobalDuplicates hotkeys hotkeyId newKey) as [|h l] eqn:E;
      [simpl in Hlen; lia|].
    exists h. apply elem_of_getGlobalDuplicates. rewrite E. left.
  - intros (h & Hdup%elem_of_getGlobalDuplicates).
    destruct (getGlobalDuplicates hotkeys hotkeyId newKey);
      [by apply elem_of_nil in Hdup|simpl; lia].
Qed.

(** C4, as amended.  The duplicates reported for a candidate are exactly
    the loaded bindings with another id and the proposed key string; the
    [active] flag plays no part: with every binding deactivated, the same
    bindings are reported. *)
Theorem getGlobalDuplicates_ignores_active (hotkeys : list Hotkey.t)
    (hotkeyId newKey : string) :
  (∀ h, h ∈ getGlobalDuplicates hotkeys hotkeyId newKey
        ↔ h ∈ hotkeys ∧ Hotkey.id h ≠ hotkeyId ∧ Hotkey.key h = newKey)
  ∧ getGlobalDuplicates (Hotkey.with_active false <$> hotkeys) hotkeyId newKey
    = Hotkey.with_active false <$> getGlobalDuplicates hotkeys hotkeyId newKey.
Proof.
  split; [intros h; apply elem_of_getGlobalDuplicates|].
  unfold getGlobalDuplicates.
  induction hotkeys as [|h hotkeys IH]; [done|].
  rewrite fmap_cons, !filter_cons, IH. simpl.
  by repeat case_decide; try tauto.
Qed.

(** C4 as stated fails: the inactive binding [submit] is reported as a
    duplicate for a candidate that asks for its key. *)
Lemma getGlobalDuplicates_reports_inactive :
  Hotkey.active Demo.submit = false
  ∧ getGlobalDuplicates Demo.defaults "annotation:undo" "ctrl+enter"
    = [Demo.submit].
Proof. split; by vm_compute. Qed.

(** ** Editing a key *)

Section Edit.
Context {S : Type}.
Implicit Types (w : World.t S) (r : UI.t) (hotkeys : list Hotkey.t).

Lemma findHotkey_Some hotkeys hotkeyId h :
  findHotkey hotkeys hotkeyId = Some h → h ∈ hotkeys ∧ Hotkey.id h = hotkeyId.
Proof.
  unfold findHotkey. intros H. apply find_some in H as [Hin Heq].
  split; [by apply list_elem_of_In|by apply String.eqb_eq].
Qed.

Lemma findHotkey_loaded hotkeys hotkeyId :
  hotkeyId ∈ Hotkey.id <$> hotkeys → is_Some (findHotkey hotkeys hotkeyId).
Proof.
  unfold findHotkey.
  induction hotkeys as [|h hotkeys IH]; simpl; [by intros ?%elem_of_nil|].
  intros [->|Hin]%elem_of_cons.
  - rewrite String.eqb_refl. eauto.
  - destruct (String.eqb _ _); eauto.
Qed.

Lemma findHotkey_None_rekeyed hotkeys hotkeyId newKey :
  findHotkey hotkeys hotkeyId = None → rekeyed hotkeyId newKey hotkeys = hotkeys.
Proof.
  unfold findHotkey, rekeyed.
  induction hotkeys as [|h hotkeys IH]; simpl; [done|].
  destruct (String.eqb _ _) eqn:E; [done|]. intros H. by rewrite IH.
Qed.

(** The run of [updateHotkeyKey] for a loaded candidate. *)
Lemma updateHotkeyKey_run r w hotkeyId newKey hotkey :
  findHotkey (UI.hotkeys r) hotkeyId = Some hotkey →
  updateHotkeyKey r hotkeyId newKey w =
  (Normal tt,
   World.mk
     (UI.setEditingHotkeyId None
        (UI.setDirtyState (<[Hotkey.section hotkey := true]> (UI.dirtyState r))
           (UI.setHotkeys (rekeyed hotkeyId newKey (UI.hotkeys r)) (World.ui w))))
     (World.remote w) (World.sent w) (World.toasts w) (World.downloads w)).
Proof. intros H. unfold updateHotkeyKey. by rewrite H. Qed.

Lemma updateHotkeyKey_hotkeys w hotkeyId newKey :
  UI.hotkeys (World.ui (dispatch (fun r => updateHotkeyKey r hotkeyId newKey) w))
  = rekeyed hotkeyId newKey (UI.hotkeys (World.ui w)).
Proof.
  unfold dispatch.
  destruct (findHotkey (UI.hotkeys (World.ui w)) hotkeyId) as [hotkey|] eqn:E.
  - by rewrite (updateHotkeyKey_run _ _ _ _ _ E).
  - unfold updateHotkeyKey. rewrite E. simpl.
    by rewrite findHotkey_None_rekeyed.
Qed.

(** C10.  [updateHotkeyKey] writes a list of the same length and order in
    which every binding with the given id has [key] and [mac] set to the
    new key string and its other fields kept, and every binding with
    another id is the same; for the id of a loaded binding, some binding of
    the new list has that id and the new key. *)
Theorem updateHotkeyKey_frame w (hotkeyId newKey : string) :
  hotkeyId ∈ Hotkey.id <$> UI.hotkeys (World.ui w) →
  let hotkeys' :=
    UI.hotkeys
      (World.ui (dispatch (fun r => updateHotkeyKey r hotkeyId newKey) w)) in
  Forall2
    (fun h h' =>
       if decide (Hotkey.id h = hotkeyId)
       then Hotkey.key h' = newKey
            ∧ Hotkey.mac h' = Some newKey
            ∧ Hotkey.id h' = Hotkey.id h
            ∧ Hotkey.section h' = Hotkey.section h
            ∧ Hotkey.element h' = Hotkey.element h
            ∧ Hotkey.label h' = Hotkey.label h
            ∧ Hotkey.active h' = Hotkey.active h
            ∧ Hotkey.subgroup h' = Hotkey.subgroup h
            ∧ Hotkey.description h' = Hotkey.description h
       else h' = h)
    (UI.hotkeys (World.ui w)) hotkeys'
  ∧ ∃ h', h' ∈ hotkeys' ∧ Hotkey.id h' = hotkeyId ∧ Hotkey.key h' = newKey
          ∧ Hotkey.mac h' = Some newKey.
Proof.
  intros Hloaded hotkeys'. subst hotkeys'. rewrite updateHotkeyKey_hotkeys.
  split.
  - clear Hloaded. unfold rekeyed.
    induction (UI.hotkeys (World.ui w)) as [|h hotkeys IH]; simpl;
      [constructor|]. constructor; [|exact IH].
    destruct (String.eqb_spec (Hotkey.id h) hotkeyId); case_decide; done.
  - apply list_elem_of_fmap in Hloaded as (h & -> & Hin).
    exists (Hotkey.with_mac newKey (Hotkey.with_key newKey h)).
    split; [|done]. unfold rekeyed. apply list_elem_of_fmap.
    exists h. by rewrite String.eqb_refl.
Qed.

(** The world after [handleSaveHotkey] for a loaded candidate. *)
Lemma handleSaveHotkey_world w hotkeyId newKey hotkey :
  findHotkey (UI.hotkeys (World.ui w)) hotkeyId = Some hotkey →
  dispatch (fun r => handleSaveHotkey r hotkeyId newKey) w
  = World.mk
      (if Nat.ltb 0 (length (getGlobalDuplicates (UI.hotkeys (World.ui w))
                               hotkeyId newKey))
       then UI.setDuplicateConfirmDialog
              (DuplicateConfirmDialog.mk true (Some hotkeyId) (Some newKey)
                 (getGlobalDuplicates (UI.hotkeys (World.ui w)) hotkeyId newKey))
              (World.ui w)
       else UI.setEditingHotkeyId None
              (UI.setDirtyState
                 (<[Hotkey.section hotkey := true]> (UI.dirtyState (World.ui w)))
                 (UI.setHotkeys (rekeyed hotkeyId newKey (UI.hotkeys (World.ui w)))
                    (World.ui w))))
      (World.remote w) (World.sent w) (World.toasts w) (World.downloads w).
Proof.
  intros Hfind. unfold dispatch, handleSaveHotkey. rewrite Hfind.
  destruct (Nat.ltb _ _); [done|].
  by rewrite (updateHotkeyKey_run _ _ _ _ _ Hfind).
Qed.

(** What [updateHotkeyKey] writes is the new key applied. *)
Lemma rekeyed_keyApplied hotkeyId newKey hotkeys :
  keyApplied hotkeyId newKey hotkeys (rekeyed hotkeyId newKey hotkeys).
Proof.
  unfold keyApplied, rekeyed.
  induction hotkeys as [|h hotkeys IH]; simpl; [constructor|].
  constructor; [|exact IH].
  destruct (String.eqb_spec (Hotkey.id h) hotkeyId); case_decide; done.
Qed.

(** C3, as amended.  For a loaded candidate: when another loaded binding
    has the proposed key string, saving the key leaves the binding list and
    the dirty map as they were and opens the confirmation dialog on the
    pending change; cancelling keeps the list; confirming applies the new
    key (it becomes [key] and [mac] of the candidate, nothing else
    changes) when the candidate's id and the key are not the empty string,
    and otherwise only closes the dialog, the list staying as it was.  When
    no other binding has the key string, the new key is applied at once and
    no dialog opens. *)
Theorem handleSaveHotkey_defers_on_conflict w (hotkeyId newKey : string) :
  hotkeyId ∈ Hotkey.id <$> UI.hotkeys (World.ui w) →
  let hotkeys := UI.hotkeys (World.ui w) in
  let w' := dispatch (fun r => handleSaveHotkey r hotkeyId newKey) w in
  let confirmed := dispatch handleConfirmDuplicate w' in
  ((∃ h, h ∈ hotkeys ∧ Hotkey.id h ≠ hotkeyId ∧ Hotkey.key h = newKey) →
     UI.hotkeys (World.ui w') = hotkeys
     ∧ UI.dirtyState (World.ui w') = UI.dirtyState (World.ui w)
     ∧ UI.duplicateConfirmDialog (World.ui w')
       = DuplicateConfirmDialog.mk true (Some hotkeyId) (Some newKey)
           (getGlobalDuplicates hotkeys hotkeyId newKey)
     ∧ UI.hotkeys (World.ui (dispatch handleCancelDuplicate w')) = hotkeys
     ∧ UI.duplicateConfirmDialog (World.ui confirmed)
       = DuplicateConfirmDialog.closed
     ∧ (hotkeyId ≠ "" → newKey ≠ "" →
        keyApplied hotkeyId newKey hotkeys (UI.hotkeys (World.ui confirmed)))
     ∧ (hotkeyId = "" ∨ newKey = "" →
        UI.hotkeys (World.ui confirmed) = hotkeys))
  ∧ ((¬ ∃ h, h ∈ hotkeys ∧ Hotkey.id h ≠ hotkeyId ∧ Hotkey.key h = newKey) →
     keyApplied hotkeyId newKey hotkeys (UI.hotkeys (World.ui w'))
     ∧ UI.duplicateConfirmDialog (World.ui w')
       = UI.duplicateConfirmDialog (World.ui w)).
Proof.
  intros [hotkey Hfind]%findHotkey_loaded hotkeys w' confirmed.
  subst confirmed w'.
  rewrite (handleSaveHotkey_world _ _ _ _ Hfind). fold hotkeys. split.
  - intros Hdup%getGlobalDuplicates_nonempty. rewrite Hdup.
    do 4 (split; [done|]).
    unfold dispatch, handleConfirmDuplicate, bind, set. simpl.
    destruct (truthy hotkeyId) eqn:Hid, (truthy newKey) eqn:Hkey; simpl.
    + erewrite updateHotkeyKey_run by exact Hfind. simpl.
      split; [done|]. split; [intros _ _; apply rekeyed_keyApplied|].
      apply truthy_true in Hid, Hkey. by intros [?|?].
    + apply truthy_false in Hkey. split; [done|]. split; done.
    + apply truthy_false in Hid. split; [done|]. split; done.
    + apply truthy_false in Hid. split; [done|]. split; done.
  - intros Hnone.
    destruct (Nat.ltb _ _) eqn:Hdup;
      [by apply getGlobalDuplicates_nonempty in Hdup|].
    simpl. split; [apply rekeyed_keyApplied|done].
Qed.

End Edit.

(** ** Export files read back *)

Lemma hotkey_of_to_json (h : Hotkey.t) : hotkey_of_json (hotkey_to_json h) = Some h.
Proof.
  destruct h as [i s e l k [m|] a [g|] [d|]]; reflexivity.
Qed.

Lemma hotkeys_of_to_json (hotkeys : list Hotkey.t) :
  hotkeys_of_json (map hotkey_to_json hotkeys) = Some hotkeys.
Proof.
  unfold hotkeys_of_json. apply mapM_Some.
  induction hotkeys as [|h hotkeys IH]; simpl; constructor; [|exact IH].
  apply hotkey_of_to_json.
Qed.

(** Reading an exported file gives back the envelope that was written,
    without its timestamp and version. *)
Lemma read_import_file_export (d : ExportData.t) :
  read_import_file (export_to_json d)
  = Some (ImportedEnvelope
            (ImportData.mk (Some (ExportData.hotkeys d))
               (Some (ImportSettings.mk
                        (Some (HotkeySettings.autoTranslatePlatforms
                                 (ExportData.settings d))))))).
Proof.
  unfold read_import_file, export_to_json. simpl.
  by rewrite hotkeys_of_to_json.
Qed.

(** ** Persistence *)

Section Persistence.
Context {S : Type} (env : Env.t S).
Implicit Types (w : World.t S) (hotkeys : list Hotkey.t).

Lemma toCustomHotkeys_snoc hotkeys h :
  toCustomHotkeys (hotkeys ++ [h])
  = <[lookupKey h := entry_of h]> (toCustomHotkeys hotkeys).
Proof. unfold toCustomHotkeys. by rewrite foldl_app. Qed.

(** Each key of the serialised map holds the entry of the last binding of
    the list with that [section:element] key. *)
Lemma toCustomHotkeys_lookup hotkeys (k : string) :
  toCustomHotkeys hotkeys !! k
  = entry_of <$> last (filter (fun h => lookupKey h = k) hotkeys).
Proof.
  induction hotkeys as [|h hotkeys IH] using rev_ind; [done|].
  rewrite toCustomHotkeys_snoc, filter_app, filter_cons, filter_nil.
  case_decide as Hk.
  - subst k. by rewrite lookup_insert_eq, last_snoc.
  - rewrite lookup_insert_ne by done. by rewrite app_nil_r.
Qed.

Lemma filter_lookupKey_absent hotkeys (k : string) :
  k ∉ lookupKey <$> hotkeys → filter (fun x => lookupKey x = k) hotkeys = [].
Proof.
  induction hotkeys as [|x hotkeys IH]; simpl; [done|].
  intros [Hx Hin]%not_elem_of_cons. rewrite filter_cons.
  rewrite decide_False by done. by apply IH.
Qed.

Lemma filter_lookupKey_NoDup hotkeys h :
  NoDup (lookupKey <$> hotkeys) → h ∈ hotkeys →
  filter (fun x => lookupKey x = lookupKey h) hotkeys = [h].
Proof.
  induction hotkeys as [|x hotkeys IH]; simpl; [by intros _ ?%elem_of_nil|].
  intros [Hx Hnd]%NoDup_cons Hin. rewrite filter_cons.
  apply elem_of_cons in Hin as [->|Hin].
  - rewrite decide_True by done. f_equal. by apply filter_lookupKey_absent.
  - rewrite decide_False; [by apply IH|].
    intros Heq. apply Hx. rewrite Heq. by apply list_elem_of_fmap_2.
Qed.

(** What [saveHotkeysToAPI] leaves behind: the body is logged, the store
    has handled that one call, nothing else moves. *)
Lemma saveHotkeysToAPI_world hotkeys settings w :
  snd (saveHotkeysToAPI env hotkeys settings w)
  = World.mk (World.ui w)
      (snd (Env.callUpdateHotkeys env (requestBody hotkeys settings) (World.remote w)))
      (World.sent w ++ [requestBody hotkeys settings])
      (World.toasts w) (World.downloads w).
Proof.
  unfold saveHotkeysToAPI, try_catch, bind, await_updateHotkeys, read_isReset.
  destruct (Env.callUpdateHotkeys _ _ _) as [[response|e] remote']; simpl.
  - by destruct (truthy_opt _).
  - by destruct (Env.isReset env).
Qed.

(** What [saveHotkeysToAPI] returns. *)
Lemma saveHotkeysToAPI_result hotkeys settings w :
  fst (saveHotkeysToAPI env hotkeys settings w)
  = match fst (Env.callUpdateHotkeys env (requestBody hotkeys settings)
                 (World.remote w)) with
    | Fulfilled response =>
        if truthy_opt (response ≫= ApiResponse.error)
        then Normal (SaveResult.mk false (response ≫= ApiResponse.error) response)
        else Normal (SaveResult.mk true None response)
    | Rejected error =>
        match Env.isReset env with
        | Some isReset =>
            Normal (SaveResult.mk false (Some (errorMessage isReset error)) None)
        | None => Throw (Thrown.ReferenceError "isReset")
        end
    end.
Proof.
  unfold saveHotkeysToAPI, try_catch, bind, await_updateHotkeys, read_isReset.
  destruct (Env.callUpdateHotkeys _ _ _) as [[response|e] remote']; simpl.
  - by destruct (truthy_opt _).
  - by destruct (Env.isReset env).
Qed.

Lemma saveHotkeysToAPI_ok hotkeys settings w result :
  fst (saveHotkeysToAPI env hotkeys settings w) = Normal result →
  SaveResult.ok result
  = updateAccepted env (requestBody hotkeys settings) (World.remote w).
Proof.
  rewrite saveHotkeysToAPI_result. unfold updateAccepted.
  destruct (fst _) as [response|e].
  - destruct (truthy_opt _); by intros [= <-].
  - destruct (Env.isReset env); [by intros [= <-]|done].
Qed.

Lemma saveHotkeysToAPI_throws hotkeys settings w e :
  fst (saveHotkeysToAPI env hotkeys settings w) = Throw e →
  updateAccepted env (requestBody hotkeys settings) (World.remote w) = false.
Proof.
  rewrite saveHotkeysToAPI_result. unfold updateAccepted.
  destruct (fst _) as [response|e']; [by destruct (truthy_opt _)|done].
Qed.

(** The world after [handleSaveSection]. *)
Lemma handleSaveSection_world w sectionId :
  let body :=
    requestBody (UI.hotkeys (World.ui w))
      (HotkeySettings.mk (UI.autoTranslatePlatforms (World.ui w))) in
  let w' := dispatch (fun r => handleSaveSection env r sectionId) w in
  World.sent w' = World.sent w ++ [body]
  ∧ World.remote w' = snd (Env.callUpdateHotkeys env body (World.remote w))
  ∧ World.ui w'
    = if updateAccepted env body (World.remote w)
      then UI.setIsLoading false
             (UI.setDirtyState (delete sectionId (UI.dirtyState (World.ui w)))
                (World.ui w))
      else UI.setIsLoading false (World.ui w).
Proof.
  intros body w'. subst w'.
  unfold dispatch, handleSaveSection, try_finally, try_catch, bind, set, toast_show.
  destruct (saveHotkeysToAPI _ _ _ _) as [c w1] eqn:E.
  pose proof (f_equal snd E) as Hw. pose proof (f_equal fst E) as Hc.
  rewrite saveHotkeysToAPI_world in Hw. simpl in Hw, Hc. subst w1.
  fold body in Hc |- *. destruct c as [result|e].
  - apply saveHotkeysToAPI_ok in Hc. simpl in Hc. fold body in Hc.
    rewrite <- Hc. by destruct (SaveResult.ok result).
  - apply saveHotkeysToAPI_throws in Hc. simpl in Hc. fold body in Hc.
    by rewrite Hc.
Qed.


(** The world after a confirmed [handleResetToDefaults], whatever the
    store answers. *)
Lemma handleResetToDefaults_world w :
  Env.confirm env (confirmMessage (World.ui w)) = true →
  let body := RequestBody.mk ∅ (HotkeySettings.mk true) in
  let w' := dispatch (handleResetToDefaults env) w in
  World.sent w' = World.sent w ++ [body]
  ∧ World.remote w' = snd (Env.callUpdateHotkeys env body (World.remote w))
  ∧ World.ui w'
    = UI.setIsLoading false
        (UI.setDirtyState ∅
           (UI.setAutoTranslatePlatforms true
              (UI.setGlobalEnabled true
                 (UI.setHotkeys (Env.DEFAULT_HOTKEYS env) (World.ui w))))).
Proof.
  intros Hconfirm body w'. subst w'.
  unfold dispatch, handleResetToDefaults. rewrite Hconfirm. cbn [negb].
  unfold try_finally, try_catch, bind, set, toast_show.
  destruct (saveHotkeysToAPI _ _ _ _) as [c w1] eqn:E.
  pose proof (f_equal snd E) as Hw.
  rewrite saveHotkeysToAPI_world in Hw. simpl in Hw. subst w1.
  change (requestBody [] _) with body.
  destruct c as [result|e]; [by destruct (SaveResult.ok result)|done].
Qed.

(** The world when the reset is declined. *)
Lemma handleResetToDefaults_declined w :
  Env.confirm env (confirmMessage (World.ui w)) = false →
  dispatch (handleResetToDefaults env) w = w.
Proof.
  intros Hconfirm. unfold dispatch, handleResetToDefaults.
  by rewrite Hconfirm.
Qed.

(** C2, as amended.  A save triggered from any section sends one request
    whose body is built from the whole current binding list and does not
    depend on the section: under each [section:element] key it holds the
    key, active flag and label of the last binding of the list with that
    key, and no entry under any other key.  When the [section:element] keys
    of the list are distinct, that is one entry per binding with the
    binding's own key and active flag.  The settings of the body are the
    current ones, or the default ones when the list is empty. *)
Theorem handleSaveSection_sends_whole_list w (sectionId : string) :
  let hotkeys := UI.hotkeys (World.ui w) in
  let settings := HotkeySettings.mk (UI.autoTranslatePlatforms (World.ui w)) in
  let body := requestBody hotkeys settings in
  World.sent (dispatch (fun r => handleSaveSection env r sectionId) w)
  = World.sent w ++ [body]
  ∧ (∀ k : string,
       RequestBody.custom_hotkeys body !! k
       = entry_of <$> last (filter (fun h => lookupKey h = k) hotkeys))
  ∧ (NoDup (lookupKey <$> hotkeys) →
     ∀ h, h ∈ hotkeys →
       RequestBody.custom_hotkeys body !! lookupKey h
       = Some (CustomSetting.mk (Hotkey.key h) (Hotkey.active h)
                 (Some (Hotkey.label h))))
  ∧ RequestBody.hotkey_settings body
    = (if decide (hotkeys = []) then HotkeySettings.mk true else settings).
Proof.
  intros hotkeys settings body. split; [apply handleSaveSection_world|].
  split; [apply toCustomHotkeys_lookup|]. split.
  - intros Hnd h Hin. simpl. rewrite toCustomHotkeys_lookup.
    by rewrite filter_lookupKey_NoDup.
  - subst body. unfold requestBody. simpl. by destruct hotkeys.
Qed.

(** C5.  Once the user has confirmed, reset sends the empty override map
    with [autoTranslatePlatforms = true] and leaves the local binding list
    equal to the compiled-in defaults, the setting [true] and no section
    dirty, whatever the local and remote state were and whatever the store
    answers. *)
Theorem handleResetToDefaults_yields_defaults w :
  Env.confirm env (confirmMessage (World.ui w)) = true →
  let w' := dispatch (handleResetToDefaults env) w in
  World.sent w' = World.sent w ++ [RequestBody.mk ∅ (HotkeySettings.mk true)]
  ∧ UI.hotkeys (World.ui w') = Env.DEFAULT_HOTKEYS env
  ∧ UI.autoTranslatePlatforms (World.ui w') = true
  ∧ UI.dirtyState (World.ui w') = ∅
  ∧ UI.globalEnabled (World.ui w') = true.
Proof.
  intros Hconfirm w'.
  destruct (handleResetToDefaults_world w Hconfirm) as (Hsent & _ & Hui).
  subst w'. by rewrite Hsent, Hui.
Qed.

(** C8, as amended.  A save that fails leaves the binding list, the
    setting and the dirty map (indeed every state cell but the loading
    flag) as they were, and a failed reset does not restore them: the
    binding list is the defaults, the setting [true] and the dirty map
    empty, as after a successful reset.  Either operation has made exactly
    one call to the store, which is in the state that call left it in. *)
Theorem failed_save_keeps_state_failed_reset_keeps_defaults w (sectionId : string) :
  let saveBody :=
    requestBody (UI.hotkeys (World.ui w))
      (HotkeySettings.mk (UI.autoTranslatePlatforms (World.ui w))) in
  let resetBody := RequestBody.mk ∅ (HotkeySettings.mk true) in
  (updateAccepted env saveBody (World.remote w) = false →
   let w' := dispatch (fun r => handleSaveSection env r sectionId) w in
   World.ui w' = UI.setIsLoading false (World.ui w)
   ∧ UI.hotkeys (World.ui w') = UI.hotkeys (World.ui w)
   ∧ UI.autoTranslatePlatforms (World.ui w') = UI.autoTranslatePlatforms (World.ui w)
   ∧ UI.dirtyState (World.ui w') = UI.dirtyState (World.ui w)
   ∧ World.sent w' = World.sent w ++ [saveBody]
   ∧ World.remote w' = snd (Env.callUpdateHotkeys env saveBody (World.remote w)))
  ∧ (Env.confirm env (confirmMessage (World.ui w)) = true →
     updateAccepted env resetBody (World.remote w) = false →
     let w' := dispatch (handleResetToDefaults env) w in
     UI.hotkeys (World.ui w') = Env.DEFAULT_HOTKEYS env
     ∧ UI.autoTranslatePlatforms (World.ui w') = true
     ∧ UI.dirtyState (World.ui w') = ∅
     ∧ World.sent w' = World.sent w ++ [resetBody]
     ∧ World.remote w' = snd (Env.callUpdateHotkeys env resetBody (World.remote w))).
Proof.
  intros saveBody resetBody. split.
  - intros Hfail w'.
    destruct (handleSaveSection_world w sectionId) as (Hsent & Hremote & Hui).
    fold saveBody in Hsent, Hremote, Hui. rewrite Hfail in Hui.
    subst w'. by rewrite Hui.
  - intros Hconfirm _ w'.
    destruct (handleResetToDefaults_world w Hconfirm) as (Hsent & Hremote & Hui).
    subst w'. by rewrite Hui.
Qed.

(** The message table of the error handler, for an environment that gives
    the identifier [isReset] a value: the save then returns a failure
    result, and its message is:
    for a caught object with a response, the server's [error] text or else
    the invalid-input message on status 400, the authentication message on
    401, the server-error message on 500 and above, and the generic failure
    message on any other status; for a caught object with a request and no
    response, the network-error message; otherwise the generic failure
    message.  When the call is fulfilled with an [error], the result is a
    failure carrying that text. *)
Theorem saveHotkeysToAPI_failure_message hotkeys settings w (isReset : bool) :
  Env.isReset env = Some isReset →
  let outcome :=
    fst (Env.callUpdateHotkeys env (requestBody hotkeys settings) (World.remote w)) in
  let result := fst (saveHotkeysToAPI env hotkeys settings w) in
  let generic := "Failed to " +:+ (if isReset then "reset" else "save") +:+ " hotkeys" in
  (∀ error, outcome = Rejected error →
     ∃ message,
       result = Normal (SaveResult.mk false (Some message) None)
       ∧ let status := Thrown.response error ≫= HttpResponse.status in
         let data_error := Thrown.response error ≫= HttpResponse.data_error in
         if Thrown.isObject error && Thrown.hasResponse error then
           (status = Some 400%Z →
              message = or_else data_error
                          ("Invalid " +:+
                           (if isReset then "reset request"
                            else "hotkeys configuration")))
           ∧ (status = Some 401%Z → message = "Authentication required")
           ∧ (∀ n, status = Some n → (500 ≤ n)%Z →
                message = "Server error - please try again later")
           ∧ (∀ n, status = Some n → n ≠ 400%Z → n ≠ 401%Z → (n < 500)%Z →
                message = generic)
           ∧ (status = None → message = generic)
         else if Thrown.isObject error && Thrown.hasRequest error then
           message = "Network error - please check your connection"
         else message = generic)
  ∧ (∀ response, outcome = Fulfilled response →
       truthy_opt (response ≫= ApiResponse.error) = true →
       result
       = Normal (SaveResult.mk false (response ≫= ApiResponse.error) response)).
Proof.
  intros HisReset outcome result generic. subst result.
  rewrite saveHotkeysToAPI_result. fold outcome. split.
  - intros error ->. rewrite HisReset. eexists. split; [done|].
    unfold errorMessage, status_is, status_ge. fold generic.
    destruct (Thrown.isObject error && Thrown.hasResponse error).
    + destruct (Thrown.response error ≫= HttpResponse.status) as [n|].
      * repeat split.
        -- by intros [= ->].
        -- by intros [= ->].
        -- intros ? [= <-] ?.
           destruct (Z.eqb_spec n 400); [lia|].
           destruct (Z.eqb_spec n 401); [lia|].
           destruct (Z.leb_spec 500 n); [done|lia].
        -- intros ? [= <-] ???.
           destruct (Z.eqb_spec n 400); [done|].
           destruct (Z.eqb_spec n 401); [done|].
           destruct (Z.leb_spec 500 n); [lia|done].
        -- done.
      * repeat split; done.
    + by destruct (Thrown.isObject error && Thrown.hasRequest error).
  - intros response -> Herr. by rewrite Herr.
Qed.

(** When nothing binds [isReset], the error handler of [saveHotkeysToAPI]
    throws while building its message, and the rejection reaches the
    caller as a [ReferenceError]. *)
Lemma saveHotkeysToAPI_unbound_isReset hotkeys settings w error :
  Env.isReset env = None →
  fst (Env.callUpdateHotkeys env (requestBody hotkeys settings) (World.remote w))
  = Rejected error →
  fst (saveHotkeysToAPI env hotkeys settings w)
  = Throw (Thrown.ReferenceError "isReset").
Proof.
  intros Hunbound Hrejected.
  by rewrite saveHotkeysToAPI_result, Hrejected, Hunbound.
Qed.

(** C9.  The module declares no [isReset], and then no rejected save call
    yields a failure result: whatever the caught error is (status 400, 401,
    5xx or anything else), the error handler throws a [ReferenceError]
    while it builds its message, the save throws it on to its caller, and
    the section save shows that error's text, not a message chosen by the
    status. *)
Theorem saveHotkeysToAPI_rejected_call_throws w (sectionId : string) error :
  let hotkeys := UI.hotkeys (World.ui w) in
  let settings := HotkeySettings.mk (UI.autoTranslatePlatforms (World.ui w)) in
  Env.isReset env = None →
  fst (Env.callUpdateHotkeys env (requestBody hotkeys settings) (World.remote w))
  = Rejected error →
  fst (saveHotkeysToAPI env hotkeys settings w)
  = Throw (Thrown.ReferenceError "isReset")
  ∧ (∀ result, fst (saveHotkeysToAPI env hotkeys settings w) ≠ Normal result)
  ∧ World.toasts (dispatch (fun r => handleSaveSection env r sectionId) w)
    = World.toasts w ++
      [Toast.mk "Error saving: isReset is not defined" ToastError].
Proof.
  intros hotkeys settings Hunbound Hrejected. subst hotkeys settings.
  set (hotkeys := UI.hotkeys (World.ui w)) in *.
  set (settings := HotkeySettings.mk (UI.autoTranslatePlatforms (World.ui w))) in *.
  assert (fst (saveHotkeysToAPI env hotkeys settings w)
          = Throw (Thrown.ReferenceError "isReset")) as Hthrows
    by (by apply saveHotkeysToAPI_unbound_isReset with error).
  split; [exact Hthrows|]. split; [by rewrite Hthrows|].
  unfold dispatch, handleSaveSection, try_finally, try_catch, bind, set, toast_show.
  simpl. fold hotkeys settings.
  assert (∀ w0 : World.t S,
            World.remote w0 = World.remote w →
            fst (saveHotkeysToAPI env hotkeys settings w0)
            = Throw (Thrown.ReferenceError "isReset")) as Hany.
  { intros w0 Hremote. rewrite saveHotkeysToAPI_result, Hremote.
    by rewrite Hrejected, Hunbound. }
  match goal with
  | |- context [saveHotkeysToAPI env ?hs ?st ?w0] =>
      pose proof (Hany w0 eq_refl) as Hc;
      pose proof (saveHotkeysToAPI_world hs st w0) as Hw;
      destruct (saveHotkeysToAPI env hs st w0) as [c w1]
  end.
  simpl in Hc, Hw. subst c w1. done.
Qed.


(** ** Export and import *)

(** What a reload does: the list becomes the defaults merged with the
    overrides of the response (or the cached ones); nothing is sent. *)
Lemma loadHotkeysFromAPI_world w :
  let w' := snd (loadHotkeysFromAPI env w) in
  fst (loadHotkeysFromAPI env w) = Normal tt
  ∧ UI.hotkeys (World.ui w')
    = updateHotkeysWithCustomSettings (Env.DEFAULT_HOTKEYS env)
        (reloadedOverrides env (World.remote w))
  ∧ World.sent w' = World.sent w
  ∧ World.remote w' = snd (Env.callHotkeys env (World.remote w)).
Proof.
  unfold loadHotkeysFromAPI, reloadedOverrides, try_finally, try_catch, bind,
    set, toast_show, await_hotkeys.
  simpl. destruct (Env.callHotkeys env (World.remote w)) as [[response|e] s']; simpl.
  - by destruct (response ≫= ApiResponse.custom_hotkeys).
  - done.
Qed.

(** The world after importing an envelope that carries a binding list and
    the setting. *)
Lemma handleImportHotkeys_world w hotkeys (setting : bool) :
  let data :=
    ImportedEnvelope
      (ImportData.mk (Some hotkeys) (Some (ImportSettings.mk (Some setting)))) in
  let body := requestBody hotkeys (HotkeySettings.mk setting) in
  let w' := dispatch (fun r => handleImportHotkeys env r data) w in
  World.sent w' = World.sent w ++ [body]
  ∧ UI.hotkeys (World.ui w')
    = if updateAccepted env body (World.remote w)
      then updateHotkeysWithCustomSettings (Env.DEFAULT_HOTKEYS env)
             (reloadedOverrides env
                (snd (Env.callUpdateHotkeys env body (World.remote w))))
      else hotkeys.
Proof.
  intros data body w'. subst w' data.
  unfold dispatch, handleImportHotkeys.
  unfold try_finally, try_catch, bind, set, toast_show, throw. simpl.
  destruct (saveHotkeysToAPI _ _ _ _) as [c w1] eqn:E.
  pose proof (f_equal snd E) as Hw. pose proof (f_equal fst E) as Hc.
  rewrite saveHotkeysToAPI_world in Hw. simpl in Hw, Hc. subst w1.
  fold body in Hc |- *. destruct c as [result|e].
  - apply saveHotkeysToAPI_ok in Hc. simpl in Hc. fold body in Hc.
    rewrite <- Hc. destruct (SaveResult.ok result); simpl; [|done].
    match goal with
    | |- context [loadHotkeysFromAPI env ?w0] =>
        destruct (loadHotkeysFromAPI_world w0) as (Hn & Hh & Hs & _);
        destruct (loadHotkeysFromAPI env w0) as [c2 w2]
    end.
    simpl in Hn, Hh, Hs. subst c2. simpl. by rewrite Hh, Hs.
  - apply saveHotkeysToAPI_throws in Hc. simpl in Hc. fold body in Hc.
    by rewrite Hc.
Qed.


Lemma merge_of_entries (custom : CustomHotkeys) defaults hotkeys :
  Forall2 customised defaults hotkeys →
  (∀ h, h ∈ hotkeys → custom !! lookupKey h = Some (entry_of h)) →
  updateHotkeysWithCustomSettings defaults custom = hotkeys.
Proof.
  unfold updateHotkeysWithCustomSettings.
  induction 1 as [|d h defaults hotkeys Hdh _ IH]; intros Hcustom; simpl; [done|].
  rewrite IH by (intros; apply Hcustom; by right).
  f_equal.
  destruct Hdh as (Hid & Hsec & Hel & Hmac & Hsub & Hdesc & Hlabel).
  assert (lookupKey d = lookupKey h) as -> by (unfold lookupKey; congruence).
  rewrite Hcustom by left. simpl.
  destruct d, h; simpl in *; subst.
  destruct (truthy label0) eqn:Hl; [done|].
  apply truthy_false in Hl. subst. by rewrite Hlabel.
Qed.

(** Merging the defaults with the overrides serialised from a list of
    customised defaults gives that list back. *)
Lemma merge_of_saved defaults hotkeys :
  NoDup (lookupKey <$> defaults) →
  Forall2 customised defaults hotkeys →
  updateHotkeysWithCustomSettings defaults (toCustomHotkeys hotkeys) = hotkeys.
Proof.
  intros Hnd Hall. apply merge_of_entries; [done|].
  assert (lookupKey <$> hotkeys = lookupKey <$> defaults) as Hkeys.
  { clear Hnd. induction Hall as [|d h ?? (_ & Hsec & Hel & _) _ IH]; [done|].
    rewrite !fmap_cons, IH. f_equal. unfold lookupKey. congruence. }
  intros h Hin. rewrite toCustomHotkeys_lookup.
  rewrite filter_lookupKey_NoDup; [done| |done]. by rewrite Hkeys.
Qed.

(** Merging the defaults with entries taken from edited bindings gives the
    edited bindings back, but for [mac], which is the default's. *)
Lemma merge_of_edited_entries (custom : CustomHotkeys) defaults hotkeys :
  Forall2 edited defaults hotkeys →
  (∀ h, h ∈ hotkeys → custom !! lookupKey h = Some (entry_of h)) →
  Forall2 same_but_mac hotkeys
    (updateHotkeysWithCustomSettings defaults custom)
  ∧ Forall2 (fun d h' => Hotkey.mac h' = Hotkey.mac d) defaults
      (updateHotkeysWithCustomSettings defaults custom).
Proof.
  unfold updateHotkeysWithCustomSettings.
  induction 1 as [|d h defaults hotkeys Hdh _ IH]; intros Hcustom; simpl;
    [split; constructor|].
  destruct IH as [IHsame IHmac]; [intros; apply Hcustom; by right|].
  destruct Hdh as (Hid & Hsec & Hel & Hsub & Hdesc & Hlabel).
  assert (lookupKey d = lookupKey h) as -> by (unfold lookupKey; congruence).
  rewrite Hcustom by left. simpl.
  split; (constructor; [|done]).
  - unfold same_but_mac. destruct (truthy (Hotkey.label h)) eqn:Hl; simpl;
      repeat split; try done.
    apply truthy_false in Hl. rewrite Hl. by apply Hlabel.
  - by destruct (truthy (Hotkey.label h)).
Qed.

Lemma merge_of_saved_edited defaults hotkeys :
  NoDup (lookupKey <$> defaults) →
  Forall2 edited defaults hotkeys →
  Forall2 same_but_mac hotkeys
    (updateHotkeysWithCustomSettings defaults (toCustomHotkeys hotkeys))
  ∧ Forall2 (fun d h' => Hotkey.mac h' = Hotkey.mac d) defaults
      (updateHotkeysWithCustomSettings defaults (toCustomHotkeys hotkeys)).
Proof.
  intros Hnd Hall. apply merge_of_edited_entries; [done|].
  assert (lookupKey <$> hotkeys = lookupKey <$> defaults) as Hkeys.
  { clear Hnd. induction Hall as [|d h ?? (_ & Hsec & Hel & _) _ IH]; [done|].
    rewrite !fmap_cons, IH. f_equal. unfold lookupKey. congruence. }
  intros h Hin. rewrite toCustomHotkeys_lookup.
  rewrite filter_lookupKey_NoDup; [done| |done]. by rewrite Hkeys.
Qed.

(** C6, as amended.  Export offers a file that reads back as the envelope
    with the original binding list, field for field, and the original
    setting.  Importing it sends that whole list in one save request.  If
    that save fails, the local binding list is the original one.  If it
    succeeds, the list is reloaded: it is the compiled-in defaults merged
    with the overrides the store returns (or the cached ones).  When the
    store returns what was saved and the original list is the defaults,
    with distinct [section:element] keys, as the page can edit them
    ([key], [active], [mac] and non-empty [label] changed), the reloaded
    list agrees with the original in every field but [mac], which is the
    default's; it is the original list when [mac] was not changed. *)
Theorem export_then_import w wi :
  let r := World.ui w in
  let hotkeys := UI.hotkeys r in
  let file := export_to_json (exportData env r) in
  let data :=
    ImportedEnvelope
      (ImportData.mk (Some hotkeys)
         (Some (ImportSettings.mk (Some (UI.autoTranslatePlatforms r))))) in
  let body := requestBody hotkeys (HotkeySettings.mk (UI.autoTranslatePlatforms r)) in
  let stored := snd (Env.callUpdateHotkeys env body (World.remote wi)) in
  let w' := dispatch (fun ri => handleImportHotkeys env ri data) wi in
  World.downloads (dispatch (handleExportHotkeys env) w) = World.downloads w ++ [file]
  ∧ read_import_file file = Some data
  ∧ World.sent w' = World.sent wi ++ [body]
  ∧ (updateAccepted env body (World.remote wi) = false →
     UI.hotkeys (World.ui w') = hotkeys)
  ∧ (updateAccepted env body (World.remote wi) = true →
     UI.hotkeys (World.ui w')
     = updateHotkeysWithCustomSettings (Env.DEFAULT_HOTKEYS env)
         (reloadedOverrides env stored))
  ∧ (updateAccepted env body (World.remote wi) = true →
     reloadedOverrides env stored = RequestBody.custom_hotkeys body →
     NoDup (lookupKey <$> Env.DEFAULT_HOTKEYS env) →
     Forall2 edited (Env.DEFAULT_HOTKEYS env) hotkeys →
     Forall2 same_but_mac hotkeys (UI.hotkeys (World.ui w'))
     ∧ Forall2 (fun d h' => Hotkey.mac h' = Hotkey.mac d)
         (Env.DEFAULT_HOTKEYS env) (UI.hotkeys (World.ui w')))
  ∧ (updateAccepted env body (World.remote wi) = true →
     reloadedOverrides env stored = RequestBody.custom_hotkeys body →
     NoDup (lookupKey <$> Env.DEFAULT_HOTKEYS env) →
     Forall2 customised (Env.DEFAULT_HOTKEYS env) hotkeys →
     UI.hotkeys (World.ui w') = hotkeys).
Proof.
  intros r hotkeys file data body stored w'.
  destruct (handleImportHotkeys_world wi hotkeys (UI.autoTranslatePlatforms r))
    as [Hsent Hlist].
  fold data body w' in Hsent, Hlist. fold stored in Hlist.
  split; [done|]. split; [apply read_import_file_export|].
  split; [exact Hsent|]. split; [|split; [|split]].
  - intros Hfail. by rewrite Hlist, Hfail.
  - intros Hok. by rewrite Hlist, Hok.
  - intros Hok Hecho Hnd Hall. rewrite Hlist, Hok, Hecho.
    by apply merge_of_saved_edited.
  - intros Hok Hecho Hnd Hall. rewrite Hlist, Hok, Hecho.
    by apply merge_of_saved.
Qed.

End Persistence.

(** ** Key capture *)

Section KeyCapture.
Import HotkeyItem.
Variable toLowerCase : string → string.
Implicit Types (st : State) (e : KeyboardEvent.t).

Lemma isModifierKey_true (key : string) :
  isModifierKey key = true ↔ key ∈ ["Control"; "Shift"; "Alt"; "Meta"].
Proof.
  unfold isModifierKey. rewrite existsb_exists. split.
  - intros (x & Hin & ->%String.eqb_eq). by apply list_elem_of_In.
  - intros Hin. exists key. split; [by apply list_elem_of_In|].
    apply String.eqb_refl.
Qed.

Lemma isModifierKey_false (key : string) :
  isModifierKey key = false ↔ key ∉ ["Control"; "Shift"; "Alt"; "Meta"].
Proof.
  rewrite <- isModifierKey_true. by destruct (isModifierKey key).
Qed.

(** A keydown of a bare modifier changes nothing. *)
Lemma handleKeyPress_modifier st e :
  isModifierKey (KeyboardEvent.key e) = true →
  handleKeyPress toLowerCase st e = st.
Proof.
  intros H. unfold handleKeyPress. rewrite H. by destruct (negb _).
Qed.

(** Keydowns outside recording mode change nothing. *)
Lemma handleKeyPresses_idle st events :
  keyRecordingMode st = false →
  handleKeyPresses toLowerCase st events = st.
Proof.
  intros Hidle. unfold handleKeyPresses.
  induction events as [|e events IH]; simpl; [done|].
  unfold handleKeyPress at 2. by rewrite Hidle.
Qed.

Lemma handleKeyPresses_modifiers st modifiers :
  Forall (fun m => isModifierKey (KeyboardEvent.key m) = true) modifiers →
  handleKeyPresses toLowerCase st modifiers = st.
Proof.
  unfold handleKeyPresses.
  induction 1 as [|m modifiers Hm _ IH]; simpl; [done|].
  by rewrite handleKeyPress_modifier.
Qed.

(** C7.  In a recording session, keydowns of the bare modifiers Control,
    Shift, Alt and Meta leave the recorder as it is, still recording; the
    first keydown of another key ends the recording with one combination
    string, which no later keydown changes: the names of the modifiers
    held, in the order ctrl, shift, alt, meta, then the lower-cased key,
    joined by [+]. *)
Theorem handleKeyPress_records_first_key st
    (modifiers : list KeyboardEvent.t) e (later : list KeyboardEvent.t) :
  keyRecordingMode st = true →
  Forall (fun m => KeyboardEvent.key m ∈ ["Control"; "Shift"; "Alt"; "Meta"])
    modifiers →
  KeyboardEvent.key e ∉ ["Control"; "Shift"; "Alt"; "Meta"] →
  handleKeyPresses toLowerCase st modifiers = st
  ∧ handleKeyPresses toLowerCase st (modifiers ++ e :: later)
    = mkState
        (join "+"
           ((if KeyboardEvent.ctrlKey e then ["ctrl"] else [])
            ++ (if KeyboardEvent.shiftKey e then ["shift"] else [])
            ++ (if KeyboardEvent.altKey e then ["alt"] else [])
            ++ (if KeyboardEvent.metaKey e then ["meta"] else [])
            ++ [toLowerCase (KeyboardEvent.key e)]))
        false "".
Proof.
  intros Hrec Hmods Hkey%isModifierKey_false.
  assert (handleKeyPresses toLowerCase st modifiers = st) as Hprefix.
  { apply handleKeyPresses_modifiers.
    eapply Forall_impl; [exact Hmods|]. intros m. apply isModifierKey_true. }
  split; [exact Hprefix|].
  unfold handleKeyPresses in *. rewrite foldl_app, Hprefix. simpl.
  unfold handleKeyPress at 2. rewrite Hrec, Hkey. simpl.
  fold (handleKeyPresses toLowerCase (mkState (join "+" (keyCombo toLowerCase e)) false "") later).
  rewrite handleKeyPresses_idle by done.
  f_equal. f_equal. unfold keyCombo.
  by destruct (KeyboardEvent.ctrlKey e), (KeyboardEvent.shiftKey e),
       (KeyboardEvent.altKey e), (KeyboardEvent.metaKey e).
Qed.

End KeyCapture.


(** ** The properties on the sample data *)

(** C1 on the sample catalog: the stored override of undo wins, redo and
    submit keep their defaults. *)
Example merge_sample_catalog :
  Hotkey.key <$>
    updateHotkeysWithCustomSettings Demo.defaults
      {[ "annotation:undo" := CustomSetting.mk "ctrl+shift+u" false None ]}
  = ["ctrl+shift+u"; "ctrl+shift+z"; "ctrl+enter"].
Proof. by vm_compute. Qed.

(** C2 as stated fails on a list in which two bindings have one
    [section:element] key: the body has one entry for the two of them, and
    it carries the key of the second, not of the first. *)
Lemma handleSaveSection_shared_key_one_entry :
  let w' :=
    dispatch (fun r => handleSaveSection Demo.env r "annotation") Demo.colliding in
  ∃ body,
    World.sent w' = [body]
    ∧ UI.hotkeys (World.ui Demo.colliding) = [Demo.undo; Demo.undo_alt]
    ∧ size (RequestBody.custom_hotkeys body) = 1
    ∧ RequestBody.custom_hotkeys body !! lookupKey Demo.undo
      = Some (CustomSetting.mk "ctrl+u" true (Some "Undo (alternative)"))
    ∧ Hotkey.key Demo.undo = "ctrl+z".
Proof.
  eexists. split; [by vm_compute|]. repeat split; by vm_compute.
Qed.

(** C2 on the edited sample page: saving from the settings section sends
    the entry of the rebound undo. *)
Lemma handleSaveSection_sends_whole_list_witness :
  NoDup (lookupKey <$> UI.hotkeys (World.ui Demo.edited))
  ∧ RequestBody.custom_hotkeys
      (requestBody (UI.hotkeys (World.ui Demo.edited))
         (HotkeySettings.mk (UI.autoTranslatePlatforms (World.ui Demo.edited))))
    !! "annotation:undo"
    = Some (CustomSetting.mk "ctrl+y" true (Some "Undo")).
Proof.
  assert (NoDup (lookupKey <$> UI.hotkeys (World.ui Demo.edited))) as Hnd
    by by_evaluation.
  split; [exact Hnd|].
  destruct (handleSaveSection_sends_whole_list Demo.env Demo.edited "settings")
    as (_ & _ & Hown & _).
  apply (Hown Hnd (Hotkey.with_mac "ctrl+y" (Hotkey.with_key "ctrl+y" Demo.undo))).
  by_evaluation.
Defined.

(** C3 as stated fails for a candidate whose id is the empty string: its
    change waits in the dialog, and the confirmation closes the dialog
    without applying it. *)
Lemma confirmed_change_of_empty_id_is_dropped :
  let w' :=
    dispatch (fun r => handleSaveHotkey r "" "ctrl+shift+z") Demo.with_unnamed in
  let confirmed := dispatch handleConfirmDuplicate w' in
  "" ∈ Hotkey.id <$> UI.hotkeys (World.ui Demo.with_unnamed)
  ∧ getGlobalDuplicates (UI.hotkeys (World.ui Demo.with_unnamed)) "" "ctrl+shift+z"
    = [Demo.redo]
  ∧ UI.duplicateConfirmDialog (World.ui w')
    = DuplicateConfirmDialog.mk true (Some "") (Some "ctrl+shift+z") [Demo.redo]
  ∧ UI.duplicateConfirmDialog (World.ui confirmed) = DuplicateConfirmDialog.closed
  ∧ Hotkey.key <$> UI.hotkeys (World.ui confirmed) = ["ctrl+k"; "ctrl+shift+z"]
  ∧ UI.hotkeys (World.ui confirmed) = UI.hotkeys (World.ui Demo.with_unnamed).
Proof.
  split; [by_evaluation|]. repeat split; by vm_compute.
Qed.

(** C3 on the sample page: undo asks for the key of submit, which is
    inactive; the change waits in the dialog with the list unchanged, and
    the confirmation gives undo the key. *)
Lemma handleSaveHotkey_defers_on_conflict_witness :
  let w' :=
    dispatch (fun r => handleSaveHotkey r "annotation:undo" "ctrl+enter")
      Demo.loaded in
  let confirmed := dispatch handleConfirmDuplicate w' in
  "annotation:undo" ∈ Hotkey.id <$> UI.hotkeys (World.ui Demo.loaded)
  ∧ UI.hotkeys (World.ui w') = UI.hotkeys (World.ui Demo.loaded)
  ∧ keyApplied "annotation:undo" "ctrl+enter"
      (UI.hotkeys (World.ui Demo.loaded)) (UI.hotkeys (World.ui confirmed))
  ∧ Hotkey.key <$> UI.hotkeys (World.ui Demo.loaded)
    = ["ctrl+z"; "ctrl+shift+z"; "ctrl+enter"]
  ∧ Hotkey.key <$> UI.hotkeys (World.ui confirmed)
    = ["ctrl+enter"; "ctrl+shift+z"; "ctrl+enter"].
Proof.
  intros w' confirmed.
  assert ("annotation:undo" ∈ Hotkey.id <$> UI.hotkeys (World.ui Demo.loaded))
    as Hloaded by by_evaluation.
  split; [exact Hloaded|].
  destruct (handleSaveHotkey_defers_on_conflict Demo.loaded
              "annotation:undo" "ctrl+enter" Hloaded) as [Hconflict _].
  destruct Hconflict as (Hsame & _ & _ & _ & _ & Hconfirm & _).
  - exists Demo.submit. split; [by_evaluation|]. split; [discriminate|reflexivity].
  - split; [exact Hsame|]. split; [apply Hconfirm; discriminate|].
    split; reflexivity.
Defined.

(** C5 on the edited sample page. *)
Lemma handleResetToDefaults_yields_defaults_witness :
  Env.confirm Demo.env (confirmMessage (World.ui Demo.edited)) = true
  ∧ (let w' := dispatch (handleResetToDefaults Demo.env) Demo.edited in
     World.sent w'
     = World.sent Demo.edited ++ [RequestBody.mk ∅ (HotkeySettings.mk true)]
     ∧ UI.hotkeys (World.ui w') = Demo.defaults
     ∧ UI.autoTranslatePlatforms (World.ui w') = true
     ∧ UI.dirtyState (World.ui w') = ∅
     ∧ UI.globalEnabled (World.ui w') = true).
Proof.
  split; [reflexivity|].
  apply (handleResetToDefaults_yields_defaults Demo.env Demo.edited).
  reflexivity.
Defined.

(** C6 on the edited sample page: exported, then imported against the
    store that keeps what it is sent, the list comes back with the new key
    of undo and every other field but [mac]. *)
Lemma export_then_import_witness :
  let hotkeys := UI.hotkeys (World.ui Demo.edited) in
  let body := requestBody hotkeys (HotkeySettings.mk true) in
  let data :=
    ImportedEnvelope
      (ImportData.mk (Some hotkeys) (Some (ImportSettings.mk (Some true)))) in
  let w' := dispatch (fun r => handleImportHotkeys Demo.env r data) Demo.edited in
  updateAccepted Demo.env body (World.remote Demo.edited) = true
  ∧ NoDup (lookupKey <$> Demo.defaults)
  ∧ Forall2 edited Demo.defaults hotkeys
  ∧ Forall2 same_but_mac hotkeys (UI.hotkeys (World.ui w'))
  ∧ Hotkey.key <$> hotkeys = ["ctrl+y"; "ctrl+shift+z"; "ctrl+enter"]
  ∧ Hotkey.key <$> UI.hotkeys (World.ui w')
    = ["ctrl+y"; "ctrl+shift+z"; "ctrl+enter"]
  ∧ Hotkey.key <$> Demo.defaults = ["ctrl+z"; "ctrl+shift+z"; "ctrl+enter"].
Proof.
  intros hotkeys body data w'.
  assert (updateAccepted Demo.env body (World.remote Demo.edited) = true)
    as Hok by reflexivity.
  assert (NoDup (lookupKey <$> Demo.defaults)) as Hnd by by_evaluation.
  assert (Forall2 edited Demo.defaults hotkeys) as Hall
    by (repeat constructor; discriminate).
  split; [exact Hok|]. split; [exact Hnd|]. split; [exact Hall|].
  destruct (export_then_import Demo.env Demo.edited Demo.edited)
    as (_ & _ & _ & _ & _ & Hback & _).
  split; [|split; [reflexivity|split; reflexivity]].
  apply Hback; [exact Hok| |exact Hnd|exact Hall].
  reflexivity.
Defined.

(** C6 as stated fails: after undo has been rebound to [ctrl+y] (which also
    writes [mac]), the list is exported and the file imported against a
    store that keeps what it is sent; the reloaded list has lost [mac] and
    differs from the exported one. *)
Lemma export_import_loses_mac :
  let exported := dispatch (handleExportHotkeys Demo.env) Demo.edited in
  ∃ file data,
    last (World.downloads exported) = Some file
    ∧ read_import_file file = Some data
    ∧ let imported :=
        dispatch (fun r => handleImportHotkeys Demo.env r data) exported in
      (Hotkey.mac <$> UI.hotkeys (World.ui Demo.edited)) !! 0 = Some (Some "ctrl+y")
      ∧ (Hotkey.mac <$> UI.hotkeys (World.ui imported)) !! 0 = Some None
      ∧ UI.hotkeys (World.ui imported) ≠ UI.hotkeys (World.ui Demo.edited).
Proof.
  eexists _, _. split; [by vm_compute|]. split; [by vm_compute|].
  split; [by vm_compute|]. split; [by vm_compute|].
  vm_compute. discriminate.
Qed.

(** C7 on the example of the specification: Shift alone, then Shift with
    [A], then [b]: one capture, [shift+a]. *)
Lemma handleKeyPress_records_first_key_witness :
  let st := HotkeyItem.mkState "" true "" in
  let shift := KeyboardEvent.mk "Shift" false true false false in
  let shift_a := KeyboardEvent.mk "A" false true false false in
  let b := KeyboardEvent.mk "b" false false false false in
  HotkeyItem.keyRecordingMode st = true
  ∧ Forall (fun m => KeyboardEvent.key m ∈ ["Control"; "Shift"; "Alt"; "Meta"])
      [shift]
  ∧ (KeyboardEvent.key shift_a ∉ ["Control"; "Shift"; "Alt"; "Meta"])
  ∧ HotkeyItem.handleKeyPresses HotkeyItem.ascii_toLowerCase st [shift] = st
  ∧ HotkeyItem.handleKeyPresses HotkeyItem.ascii_toLowerCase st
      ([shift] ++ shift_a :: [b])
    = HotkeyItem.mkState "shift+a" false "".
Proof.
  intros st shift shift_a b.
  assert (Forall (fun m => KeyboardEvent.key m ∈ ["Control"; "Shift"; "Alt"; "Meta"])
            [shift]) as Hmods by by_evaluation.
  assert (KeyboardEvent.key shift_a ∉ ["Control"; "Shift"; "Alt"; "Meta"])
    as Hkey by by_evaluation.
  split; [reflexivity|]. split; [exact Hmods|]. split; [exact Hkey|].
  apply (handleKeyPress_records_first_key HotkeyItem.ascii_toLowerCase
           st [shift] shift_a [b] eq_refl Hmods Hkey).
Defined.

(** C8 as stated fails for reset: with a store that refuses the update,
    the edited list and the dirty map are gone all the same. *)
Lemma failed_reset_discards_edits :
  let env := Demo.env_refusing 500 in
  let w' := dispatch (handleResetToDefaults env) Demo.edited in
  updateAccepted env (RequestBody.mk ∅ (HotkeySettings.mk true))
    (World.remote Demo.edited) = false
  ∧ World.remote w' = World.remote Demo.edited
  ∧ UI.hotkeys (World.ui w') ≠ UI.hotkeys (World.ui Demo.edited)
  ∧ UI.dirtyState (World.ui w') ≠ UI.dirtyState (World.ui Demo.edited).
Proof.
  split; [reflexivity|]. split; [reflexivity|]. split.
  - vm_compute. discriminate.
  - intros Heq. apply (f_equal (fun d : DirtyState => d !! "annotation")) in Heq.
    vm_compute in Heq. discriminate.
Qed.

(** C8 on the edited sample page with a store that refuses updates. *)
Lemma failed_save_keeps_state_failed_reset_keeps_defaults_witness :
  let env := Demo.env_refusing 500 in
  let saveBody := requestBody (UI.hotkeys (World.ui Demo.edited)) (HotkeySettings.mk true) in
  let resetBody := RequestBody.mk ∅ (HotkeySettings.mk true) in
  (updateAccepted env saveBody (World.remote Demo.edited) = false
   ∧ World.ui (dispatch (fun r => handleSaveSection env r "annotation") Demo.edited)
     = UI.setIsLoading false (World.ui Demo.edited))
  ∧ (Env.confirm env (confirmMessage (World.ui Demo.edited)) = true
     ∧ updateAccepted env resetBody (World.remote Demo.edited) = false
     ∧ UI.hotkeys (World.ui (dispatch (handleResetToDefaults env) Demo.edited))
       = Demo.defaults).
Proof.
  intros env saveBody resetBody.
  destruct (failed_save_keeps_state_failed_reset_keeps_defaults env Demo.edited
              "annotation") as [Hsave Hreset].
  split.
  - split; [reflexivity|]. apply Hsave. reflexivity.
  - split; [reflexivity|]. split; [reflexivity|].
    apply Hreset; reflexivity.
Defined.

(** C9 on the sample page with a store that answers 401: no failure
    result, no authentication message. *)
Lemma saveHotkeysToAPI_rejected_call_throws_witness :
  let env := Demo.env_refusing 401 in
  let hotkeys := UI.hotkeys (World.ui Demo.edited) in
  Env.isReset env = None
  ∧ fst (Env.callUpdateHotkeys env (requestBody hotkeys (HotkeySettings.mk true))
           (World.remote Demo.edited))
    = Rejected (Demo.http_error 401)
  ∧ fst (saveHotkeysToAPI env hotkeys (HotkeySettings.mk true) Demo.edited)
    = Throw (Thrown.ReferenceError "isReset")
  ∧ World.toasts
      (dispatch (fun r => handleSaveSection env r "annotation") Demo.edited)
    = [Toast.mk "Error saving: isReset is not defined" ToastError].
Proof.
  intros env hotkeys.
  destruct (saveHotkeysToAPI_rejected_call_throws env Demo.edited "annotation"
              (Demo.http_error 401) eq_refl eq_refl) as (Hthrows & _ & Htoast).
  split; [reflexivity|]. split; [reflexivity|].
  split; [exact Hthrows|exact Htoast].
Defined.

(** C10 on the sample page: undo is rebound, redo and submit are kept. *)
Lemma updateHotkeyKey_frame_witness :
  "annotation:undo" ∈ Hotkey.id <$> UI.hotkeys (World.ui Demo.loaded)
  ∧ ∃ h', h' ∈ UI.hotkeys
                 (World.ui
                    (dispatch (fun r => updateHotkeyKey r "annotation:undo" "ctrl+y")
                       Demo.loaded))
          ∧ Hotkey.id h' = "annotation:undo" ∧ Hotkey.key h' = "ctrl+y"
          ∧ Hotkey.mac h' = Some "ctrl+y".
Proof.
  assert ("annotation:undo" ∈ Hotkey.id <$> UI.hotkeys (World.ui Demo.loaded))
    as Hloaded by by_evaluation.
  split; [exact Hloaded|].
  apply (updateHotkeyKey_frame Demo.loaded "annotation:undo" "ctrl+y" Hloaded).
Defined.

(** * Further properties of the manager *)

(** ** Toggling a binding *)

Section Toggle.
Context {S : Type}.
Implicit Types (w : World.t S) (hotkeys : list Hotkey.t).

(** The world after [handleToggleHotkey]. *)
Lemma handleToggleHotkey_world w hotkeyId :
  dispatch (fun r => handleToggleHotkey r hotkeyId) w
  = let hotkeys' := toggled hotkeyId (UI.hotkeys (World.ui w)) in
    let dirty' :=
      match findHotkey (UI.hotkeys (World.ui w)) hotkeyId with
      | Some hotkey => <[Hotkey.section hotkey := true]> (UI.dirtyState (World.ui w))
      | None => UI.dirtyState (World.ui w)
      end in
    World.mk
      (UI.setGlobalEnabled (forallb Hotkey.active hotkeys')
         (UI.setDirtyState dirty' (UI.setHotkeys hotkeys' (World.ui w))))
      (World.remote w) (World.sent w) (World.toasts w) (World.downloads w).
Proof.
  unfold dispatch, handleToggleHotkey, bind, set. simpl.
  by destruct (findHotkey _ _).
Qed.

Lemma toggled_toggled hotkeyId hotkeys :
  toggled hotkeyId (toggled hotkeyId hotkeys) = hotkeys.
Proof.
  unfold toggled. induction hotkeys as [|h hotkeys IH]; simpl; [done|].
  rewrite IH. f_equal.
  destruct (String.eqb (Hotkey.id h) hotkeyId) eqn:E; simpl; rewrite E; [|done].
  destruct h as [i s e l k m a g d]. simpl. by rewrite negb_involutive.
Qed.

(** Toggling flips [active] on the bindings with the given id and nothing
    else in the list; the page-wide switch is on exactly when every
    binding of the new list is active; the section of a loaded binding is
    marked dirty, and for an id that is not loaded the dirty map stays. *)
Theorem handleToggleHotkey_flips_target w (hotkeyId : string) :
  let w' := dispatch (fun r => handleToggleHotkey r hotkeyId) w in
  Forall2
    (fun h h' =>
       if decide (Hotkey.id h = hotkeyId)
       then h' = Hotkey.with_active (negb (Hotkey.active h)) h
       else h' = h)
    (UI.hotkeys (World.ui w)) (UI.hotkeys (World.ui w'))
  ∧ (UI.globalEnabled (World.ui w') = true
     ↔ ∀ h', h' ∈ UI.hotkeys (World.ui w') → Hotkey.active h' = true)
  ∧ (∀ h, findHotkey (UI.hotkeys (World.ui w)) hotkeyId = Some h →
       UI.dirtyState (World.ui w')
       = <[Hotkey.section h := true]> (UI.dirtyState (World.ui w)))
  ∧ (hotkeyId ∉ Hotkey.id <$> UI.hotkeys (World.ui w) →
       UI.hotkeys (World.ui w') = UI.hotkeys (World.ui w)
       ∧ UI.dirtyState (World.ui w') = UI.dirtyState (World.ui w)).
Proof.
  intros w'. subst w'. rewrite handleToggleHotkey_world. simpl.
  split; [|split; [|split]].
  - unfold toggled.
    induction (UI.hotkeys (World.ui w)) as [|h hotkeys IH]; simpl;
      [constructor|]. constructor; [|exact IH].
    destruct (String.eqb_spec (Hotkey.id h) hotkeyId); case_decide; done.
  - rewrite forallb_forall. split.
    + intros H h' Hin. apply H. by apply list_elem_of_In.
    + intros H h' Hin. apply H. by apply list_elem_of_In.
  - intros h ->. done.
  - intros Hnot.
    assert (∀ hotkeys, hotkeyId ∉ Hotkey.id <$> hotkeys →
              toggled hotkeyId hotkeys = hotkeys
              ∧ findHotkey hotkeys hotkeyId = None) as Haux.
    { clear. unfold toggled, findHotkey.
      induction hotkeys as [|h hotkeys IH]; [done|].
      rewrite fmap_cons. intros [Hne Hnot]%not_elem_of_cons. simpl.
      destruct (String.eqb_spec (Hotkey.id h) hotkeyId); [congruence|].
      destruct (IH Hnot) as [-> ->]. done. }
    destruct (Haux _ Hnot) as [-> ->]. done.
Qed.

(** Toggling the same id twice gives back the binding list, and the
    page-wide switch then tells whether every binding of it is active. *)
Theorem handleToggleHotkey_twice w (hotkeyId : string) :
  let toggle := dispatch (fun r => handleToggleHotkey r hotkeyId) in
  UI.hotkeys (World.ui (toggle (toggle w))) = UI.hotkeys (World.ui w)
  ∧ UI.globalEnabled (World.ui (toggle (toggle w)))
    = forallb Hotkey.active (UI.hotkeys (World.ui w)).
Proof.
  intros toggle. subst toggle. rewrite !handleToggleHotkey_world. simpl.
  by rewrite toggled_toggled.
Qed.

End Toggle.

(** ** Edge cases of editing *)

Section EditEdges.
Context {S : Type}.
Implicit Types (w : World.t S) (hotkeys : list Hotkey.t).

Lemma findHotkey_not_loaded hotkeys hotkeyId :
  hotkeyId ∉ Hotkey.id <$> hotkeys → findHotkey hotkeys hotkeyId = None.
Proof.
  intros Hnot. destruct (findHotkey hotkeys hotkeyId) as [h|] eqn:E; [|done].
  apply findHotkey_Some in E as [Hin <-]. destruct Hnot.
  by apply list_elem_of_fmap_2.
Qed.

(** For an id that no loaded binding has, neither saving a key nor
    applying one does anything: no binding changes, no dialog opens, no
    section becomes dirty, edit mode stays. *)
Theorem handleSaveHotkey_unknown_id w (hotkeyId newKey : string) :
  hotkeyId ∉ Hotkey.id <$> UI.hotkeys (World.ui w) →
  dispatch (fun r => handleSaveHotkey r hotkeyId newKey) w = w
  ∧ dispatch (fun r => updateHotkeyKey r hotkeyId newKey) w = w.
Proof.
  intros Hnone%findHotkey_not_loaded.
  unfold dispatch, handleSaveHotkey, updateHotkeyKey. by rewrite Hnone.
Qed.

(** Confirming a dialog that holds no pending change, or one whose id or
    key is the empty string, only closes the dialog: the pending change is
    dropped and the binding list and dirty map stay. *)
Theorem handleConfirmDuplicate_without_pending w :
  let dialog := UI.duplicateConfirmDialog (World.ui w) in
  truthy_opt (DuplicateConfirmDialog.hotkeyId dialog) = false
  ∨ truthy_opt (DuplicateConfirmDialog.newKey dialog) = false →
  dispatch handleConfirmDuplicate w
  = World.mk
      (UI.setDuplicateConfirmDialog DuplicateConfirmDialog.closed (World.ui w))
      (World.remote w) (World.sent w) (World.toasts w) (World.downloads w).
Proof.
  intros dialog Hfalsy. unfold dispatch, handleConfirmDuplicate, bind, set.
  fold dialog. simpl.
  destruct (DuplicateConfirmDialog.hotkeyId dialog) as [i|],
           (DuplicateConfirmDialog.newKey dialog) as [k|]; simpl in *; try done.
  destruct Hfalsy as [-> | ->]; [done|]. by rewrite andb_false_r.
Qed.

(** Once a duplicate has been allowed, the conflict is mutual: the other
    binding still has the key and is still reported for the candidate, and
    every binding of the candidate's id is reported for the other one. *)
Theorem allowed_duplicate_is_mutual w (hotkeyId newKey : string) (other : Hotkey.t) :
  hotkeyId ∈ Hotkey.id <$> UI.hotkeys (World.ui w) →
  other ∈ getGlobalDuplicates (UI.hotkeys (World.ui w)) hotkeyId newKey →
  let hotkeys' :=
    UI.hotkeys
      (World.ui (dispatch (fun r => updateHotkeyKey r hotkeyId newKey) w)) in
  other ∈ getGlobalDuplicates hotkeys' hotkeyId newKey
  ∧ (∃ h', h' ∈ hotkeys' ∧ Hotkey.id h' = hotkeyId)
  ∧ ∀ h', h' ∈ hotkeys' → Hotkey.id h' = hotkeyId →
      h' ∈ getGlobalDuplicates hotkeys' (Hotkey.id other) newKey.
Proof.
  intros Hloaded (Hin & Hid & Hkey)%elem_of_getGlobalDuplicates hotkeys'.
  subst hotkeys'. rewrite updateHotkeyKey_hotkeys.
  assert (∀ h', h' ∈ rekeyed hotkeyId newKey (UI.hotkeys (World.ui w)) ↔
            ∃ h, h ∈ UI.hotkeys (World.ui w)
                 ∧ h' = (if String.eqb (Hotkey.id h) hotkeyId
                         then Hotkey.with_mac newKey (Hotkey.with_key newKey h)
                         else h)) as Hmem.
  { intros h'. unfold rekeyed. rewrite list_elem_of_fmap.
    split; intros (h & ? & ?); exists h; done. }
  split; [|split].
  - apply elem_of_getGlobalDuplicates. split; [|done].
    apply Hmem. exists other. split; [done|].
    by destruct (String.eqb_spec (Hotkey.id other) hotkeyId).
  - apply list_elem_of_fmap in Hloaded as (h & -> & Hh).
    exists (Hotkey.with_mac newKey (Hotkey.with_key newKey h)).
    split; [|done]. apply Hmem. exists h. by rewrite String.eqb_refl.
  - intros h' Hh' Hid'. apply elem_of_getGlobalDuplicates.
    split; [done|]. split; [congruence|].
    apply Hmem in Hh' as (h & _ & ->).
    destruct (String.eqb_spec (Hotkey.id h) hotkeyId); [done|].
    congruence.
Qed.

End EditEdges.

(** ** Saving, loading and importing *)

Section Sync.
Context {S : Type} (env : Env.t S).
Implicit Types (w : World.t S) (hotkeys : list Hotkey.t).

Lemma find_section_listed (sectionId : string) (l : list SectionInfo.t) :
  sectionId ∈ SectionInfo.id <$> l
  ↔ is_Some (find (fun s => String.eqb (SectionInfo.id s) sectionId) l).
Proof.
  induction l as [|s l IH].
  - split; [by intros ?%elem_of_nil|by intros [? ?]].
  - rewrite fmap_cons, elem_of_cons, IH. simpl.
    destruct (String.eqb_spec (SectionInfo.id s) sectionId) as [Heq|Hne].
    + split; eauto.
    + split; [intros [?|?]; [congruence|done]|by right].
Qed.

(** The run of a save that the store accepts. *)
Lemma handleSaveSection_accepted w sectionId :
  let body :=
    requestBody (UI.hotkeys (World.ui w))
      (HotkeySettings.mk (UI.autoTranslatePlatforms (World.ui w))) in
  updateAccepted env body (World.remote w) = true →
  dispatch (fun r => handleSaveSection env r sectionId) w
  = World.mk
      (UI.setIsLoading false
         (UI.setDirtyState (delete sectionId (UI.dirtyState (World.ui w)))
            (World.ui w)))
      (snd (Env.callUpdateHotkeys env body (World.remote w)))
      (World.sent w ++ [body])
      (World.toasts w ++
       [Toast.mk
          (template
             (if String.eqb sectionId "settings" then Some "Settings"
              else SectionInfo.title <$>
                     find (fun s => String.eqb (SectionInfo.id s) sectionId)
                       (Env.HOTKEY_SECTIONS env))
           +:+ " hotkeys saved successfully")
          ToastInfo])
      (World.downloads w).
Proof.
  intros body Hok.
  unfold dispatch, handleSaveSection, try_finally, try_catch, bind, set, toast_show.
  destruct (saveHotkeysToAPI _ _ _ _) as [c w1] eqn:E.
  pose proof (f_equal snd E) as Hw. pose proof (f_equal fst E) as Hc.
  rewrite saveHotkeysToAPI_world in Hw. simpl in Hw, Hc. subst w1.
  fold body in Hc |- *. destruct c as [result|e].
  - apply saveHotkeysToAPI_ok in Hc. simpl in Hc. fold body in Hc.
    rewrite Hok in Hc. by rewrite Hc.
  - apply saveHotkeysToAPI_throws in Hc. simpl in Hc. fold body in Hc.
    congruence.
Qed.


(** Saving while the binding list is empty (as before the first load has
    finished) sends the reset request: no overrides and
    [autoTranslatePlatforms = true], whatever the current setting is. *)
Theorem handleSaveSection_empty_list_resets w (sectionId : string) :
  UI.hotkeys (World.ui w) = [] →
  World.sent (dispatch (fun r => handleSaveSection env r sectionId) w)
  = World.sent w ++ [RequestBody.mk ∅ (HotkeySettings.mk true)].
Proof.
  intros Hempty.
  destruct (handleSaveSection_world env w sectionId) as (Hsent & _).
  rewrite Hsent, Hempty. done.
Qed.

(** The run of [loadHotkeysFromAPI]. *)
Lemma loadHotkeysFromAPI_run w :
  loadHotkeysFromAPI env w
  = (Normal tt,
     let merged :=
       updateHotkeysWithCustomSettings (Env.DEFAULT_HOTKEYS env)
         (reloadedOverrides env (World.remote w)) in
     match fst (Env.callHotkeys env (World.remote w)) with
     | Fulfilled _ =>
         World.mk
           (UI.setIsLoading false
              (UI.setAutoTranslatePlatforms
                 (default true (Env.cachedAutoTranslatePlatforms env))
                 (UI.setHotkeys merged (World.ui w))))
           (snd (Env.callHotkeys env (World.remote w)))
           (World.sent w) (World.toasts w) (World.downloads w)
     | Rejected _ =>
         World.mk
           (UI.setIsLoading false (UI.setHotkeys merged (World.ui w)))
           (snd (Env.callHotkeys env (World.remote w)))
           (World.sent w)
           (World.toasts w ++
            [Toast.mk
               "Could not load custom hotkeys from server, using cached settings"
               ToastError])
           (World.downloads w)
     end).
Proof.
  unfold loadHotkeysFromAPI, reloadedOverrides, try_finally, try_catch, bind,
    set, toast_show, await_hotkeys.
  simpl. destruct (Env.callHotkeys env (World.remote w)) as [[response|e] s']; simpl.
  - by destruct (response ≫= ApiResponse.custom_hotkeys).
  - done.
Qed.

(** Loading always completes, without throwing and with the loading flag
    off.  The binding list becomes the compiled-in defaults merged with the
    overrides of the response, or with the cached overrides when the call
    is rejected or the response has none (with no overrides at all when
    nothing is cached).  The setting never comes from the response: it is
    the cached one, or [true], after a fulfilled call and is left alone
    after a rejected one, which shows one error toast.  The dirty map is
    not touched and nothing is sent. *)
Theorem loadHotkeysFromAPI_always_completes w :
  let w' := snd (loadHotkeysFromAPI env w) in
  let outcome := fst (Env.callHotkeys env (World.remote w)) in
  let cached := default ∅ (Env.cachedCustomHotkeys env) in
  fst (loadHotkeysFromAPI env w) = Normal tt
  ∧ UI.isLoading (World.ui w') = false
  ∧ UI.dirtyState (World.ui w') = UI.dirtyState (World.ui w)
  ∧ World.sent w' = World.sent w
  ∧ match outcome with
    | Fulfilled response =>
        UI.hotkeys (World.ui w')
        = updateHotkeysWithCustomSettings (Env.DEFAULT_HOTKEYS env)
            (default cached (response ≫= ApiResponse.custom_hotkeys))
        ∧ UI.autoTranslatePlatforms (World.ui w')
          = default true (Env.cachedAutoTranslatePlatforms env)
        ∧ World.toasts w' = World.toasts w
    | Rejected _ =>
        UI.hotkeys (World.ui w')
        = updateHotkeysWithCustomSettings (Env.DEFAULT_HOTKEYS env) cached
        ∧ UI.autoTranslatePlatforms (World.ui w')
          = UI.autoTranslatePlatforms (World.ui w)
        ∧ World.toasts w'
          = World.toasts w ++
            [Toast.mk
               "Could not load custom hotkeys from server, using cached settings"
               ToastError]
    end.
Proof.
  intros w' outcome cached. subst w'. rewrite loadHotkeysFromAPI_run.
  unfold reloadedOverrides. fold outcome cached. simpl.
  destruct outcome; simpl; repeat split; done.
Qed.


(** Running an import up to the answer of the store. *)
Ltac run_import importedData :=
  destruct importedData as [[[?|] [[[?|]]|]]|?];
  unfold dispatch, handleImportHotkeys, try_finally, try_catch, bind, set,
    toast_show, throw; simpl;
  match goal with
  | |- context [saveHotkeysToAPI ?e ?hs ?st ?w0] =>
      let c := fresh "c" in
      let w1 := fresh "w1" in
      let E := fresh "E" in
      let Hw := fresh "Hw" in
      let Hc := fresh "Hc" in
      destruct (saveHotkeysToAPI e hs st w0) as [c w1] eqn:E;
      pose proof (f_equal snd E) as Hw; pose proof (f_equal fst E) as Hc;
      rewrite saveHotkeysToAPI_world in Hw; simpl in Hw, Hc; subst w1;
      destruct c as [?result|?e];
      [apply saveHotkeysToAPI_ok in Hc|apply saveHotkeysToAPI_throws in Hc];
      simpl in Hc
  end.

(** An import whose save fails keeps the imported list on the page (it was
    written before the request), with the page-wide switch and the setting
    taken from the import; the dirty map is as before, the list is not
    reloaded (the store has seen the one update call only) and one error
    toast is shown. *)
Theorem handleImportHotkeys_failure_keeps_import w (importedData : Imported) :
  let hotkeys := importedHotkeys importedData in
  let setting :=
    default (UI.autoTranslatePlatforms (World.ui w)) (importedSetting importedData) in
  let body := requestBody hotkeys (HotkeySettings.mk setting) in
  updateAccepted env body (World.remote w) = false →
  let w' := dispatch (fun r => handleImportHotkeys env r importedData) w in
  UI.hotkeys (World.ui w') = hotkeys
  ∧ UI.globalEnabled (World.ui w') = forallb Hotkey.active hotkeys
  ∧ UI.autoTranslatePlatforms (World.ui w') = setting
  ∧ UI.dirtyState (World.ui w') = UI.dirtyState (World.ui w)
  ∧ UI.isLoading (World.ui w') = false
  ∧ World.remote w' = snd (Env.callUpdateHotkeys env body (World.remote w))
  ∧ World.sent w' = World.sent w ++ [body]
  ∧ ∃ message,
      World.toasts w'
      = World.toasts w ++
        [Toast.mk ("Error importing hotkeys: " +:+ message) ToastError].
Proof.
  intros hotkeys setting body Hfail w'. subst w' body setting hotkeys.
  run_import importedData; simpl in Hfail; rewrite Hfail in Hc;
    try (rewrite Hc; simpl); repeat split; eauto.
Qed.


End Sync.

(** ** Merging and saving compose *)

(** Merging without overrides returns the defaults, and merging the same
    overrides a second time changes nothing. *)
Theorem merge_idempotent (defaults : list Hotkey.t) (custom : CustomHotkeys) :
  updateHotkeysWithCustomSettings defaults ∅ = defaults
  ∧ updateHotkeysWithCustomSettings
      (updateHotkeysWithCustomSettings defaults custom) custom
    = updateHotkeysWithCustomSettings defaults custom.
Proof.
  unfold updateHotkeysWithCustomSettings. split.
  - induction defaults as [|d defaults IH]; simpl; [done|].
    by rewrite lookup_empty, IH.
  - rewrite map_map. apply map_ext. intros d.
    destruct (custom !! lookupKey d) as [[k a desc]|] eqn:E; simpl.
    + assert (∀ h, lookupKey h = lookupKey d →
                custom !! lookupKey h = Some (CustomSetting.mk k a desc))
        as Hsame by (by intros h ->).
      destruct desc as [desc|]; [destruct (truthy desc) eqn:Ht|];
        (rewrite Hsame by done); simpl; try rewrite Ht; done.
    + by rewrite E.
Qed.

(** A list is the defaults customised. *)
Lemma merge_customised (defaults : list Hotkey.t) (custom : CustomHotkeys) :
  Forall2 customised defaults (updateHotkeysWithCustomSettings defaults custom).
Proof.
  unfold updateHotkeysWithCustomSettings.
  induction defaults as [|d defaults IH]; simpl; [constructor|].
  constructor; [|exact IH]. unfold customised.
  destruct (custom !! lookupKey d) as [[k a [desc|]]|]; simpl;
    [destruct (truthy desc) eqn:Ht; simpl|..]; repeat split; try done.
  intros ->. done.
Qed.

(** Loading, saving and loading again is stable: when the defaults have
    distinct [section:element] keys, merging them with the overrides
    serialised from a merged list gives that list back. *)
Theorem reload_of_saved_merge (defaults : list Hotkey.t) (custom : CustomHotkeys) :
  NoDup (lookupKey <$> defaults) →
  updateHotkeysWithCustomSettings defaults
    (toCustomHotkeys (updateHotkeysWithCustomSettings defaults custom))
  = updateHotkeysWithCustomSettings defaults custom.
Proof.
  intros Hnd. apply merge_of_saved; [done|]. apply merge_customised.
Qed.

(** ** What the page shows, and editing followed by saving *)

Section Shown.
Context {S : Type} (env : Env.t S).
Implicit Types (w : World.t S) (r : UI.t).

(** A binding is shown on the page exactly when its section is listed in
    the catalog, under that section, and the card of a section shows its
    bindings in the order of the list.  A binding of an unlisted section is
    shown nowhere, yet every binding, shown or not, has its entry in the
    body of a save. *)
Theorem renderedHotkeys_listed_sections_only r :
  (∀ sectionId shown h,
     (sectionId, shown) ∈ renderedHotkeys env r →
     (h ∈ shown ↔ h ∈ UI.hotkeys r ∧ Hotkey.section h = sectionId)
     ∧ shown `sublist_of` UI.hotkeys r)
  ∧ (∀ h, (∃ sectionId shown,
             (sectionId, shown) ∈ renderedHotkeys env r ∧ h ∈ shown)
          ↔ h ∈ UI.hotkeys r
            ∧ Hotkey.section h ∈ SectionInfo.id <$> Env.HOTKEY_SECTIONS env)
  ∧ (∀ h, h ∈ UI.hotkeys r →
          is_Some (toCustomHotkeys (UI.hotkeys r) !! lookupKey h)).
Proof.
  unfold renderedHotkeys, getHotkeysBySection. split; [|split].
  - intros sectionId shown h (s & [= -> ->] & Hs)%list_elem_of_fmap.
    split; [rewrite list_elem_of_filter; tauto|apply sublist_filter].
  - intros h. split.
    + intros (sectionId & shown & (s & [= -> ->] & Hs)%list_elem_of_fmap & Hin).
      apply list_elem_of_filter in Hin as [Hsec Hin]. split; [done|].
      rewrite Hsec. by apply list_elem_of_fmap_2.
    + intros [Hin (s & Hsec & Hs)%list_elem_of_fmap].
      exists (SectionInfo.id s), (filter (fun hotkey => Hotkey.section hotkey = SectionInfo.id s) (UI.hotkeys r)).
      split; [apply list_elem_of_fmap; eauto|].
      by apply list_elem_of_filter.
  - intros h Hin. rewrite toCustomHotkeys_lookup.
    assert (h ∈ filter (fun x => lookupKey x = lookupKey h) (UI.hotkeys r))
      as Hh by (by apply list_elem_of_filter).
    destruct (filter _ _) as [|x l] using rev_ind;
      [by apply elem_of_nil in Hh|].
    rewrite last_snoc. eauto.
Qed.

(** Editing then saving: when no other binding has the new key, saving it
    on a loaded binding and then saving that binding's section with
    success sends the new key under the binding's [section:element] key
    (the keys of the list being distinct) and leaves the section clean. *)
Theorem edit_then_save_section w (hotkeyId newKey : string) (hotkey : Hotkey.t) :
  findHotkey (UI.hotkeys (World.ui w)) hotkeyId = Some hotkey →
  getGlobalDuplicates (UI.hotkeys (World.ui w)) hotkeyId newKey = [] →
  NoDup (lookupKey <$> UI.hotkeys (World.ui w)) →
  let w1 := dispatch (fun r => handleSaveHotkey r hotkeyId newKey) w in
  let body :=
    requestBody (UI.hotkeys (World.ui w1))
      (HotkeySettings.mk (UI.autoTranslatePlatforms (World.ui w))) in
  updateAccepted env body (World.remote w) = true →
  let w2 :=
    dispatch (fun r => handleSaveSection env r (Hotkey.section hotkey)) w1 in
  UI.dirtyState (World.ui w1) !! Hotkey.section hotkey = Some true
  ∧ World.sent w2 = World.sent w ++ [body]
  ∧ RequestBody.custom_hotkeys body !! lookupKey hotkey
    = Some (CustomSetting.mk newKey (Hotkey.active hotkey)
              (Some (Hotkey.label hotkey)))
  ∧ UI.dirtyState (World.ui w2) !! Hotkey.section hotkey = None
  ∧ UI.hotkeys (World.ui w2) = rekeyed hotkeyId newKey (UI.hotkeys (World.ui w)).
Proof.
  intros Hfind Hnone Hnd w1 body Hok w2.
  assert (w1 = World.mk
            (UI.setEditingHotkeyId None
               (UI.setDirtyState
                  (<[Hotkey.section hotkey := true]> (UI.dirtyState (World.ui w)))
                  (UI.setHotkeys (rekeyed hotkeyId newKey (UI.hotkeys (World.ui w)))
                     (World.ui w))))
            (World.remote w) (World.sent w) (World.toasts w) (World.downloads w))
    as Hw1.
  { subst w1. rewrite (handleSaveHotkey_world _ _ _ _ Hfind). by rewrite Hnone. }
  destruct (handleSaveSection_world env w1 (Hotkey.section hotkey))
    as (Hsent & _ & Hui).
  fold w2 in Hsent, Hui. rewrite Hw1 in Hsent, Hui. simpl in Hsent, Hui.
  assert (UI.hotkeys (World.ui w1)
          = rekeyed hotkeyId newKey (UI.hotkeys (World.ui w))) as Hlist
    by (by rewrite Hw1).
  split; [rewrite Hw1; simpl; apply lookup_insert_eq|].
  subst body. rewrite Hlist in *. rewrite Hok in Hui.
  split; [exact Hsent|]. split.
  - simpl. rewrite toCustomHotkeys_lookup.
    apply findHotkey_Some in Hfind as [Hin Hid].
    set (hotkey' := Hotkey.with_mac newKey (Hotkey.with_key newKey hotkey)).
    assert (lookupKey <$> rekeyed hotkeyId newKey (UI.hotkeys (World.ui w))
            = lookupKey <$> UI.hotkeys (World.ui w)) as Hkeys.
    { unfold rekeyed. clear.
      induction (UI.hotkeys (World.ui w)) as [|h l IH]; [done|].
      cbn [map]. rewrite !fmap_cons, IH. f_equal.
      by destruct (String.eqb _ _). }
    change (lookupKey hotkey) with (lookupKey hotkey').
    rewrite filter_lookupKey_NoDup; [done|by rewrite Hkeys|].
    unfold rekeyed. apply list_elem_of_fmap. exists hotkey.
    split; [|done]. subst hotkey'. apply String.eqb_eq in Hid. by rewrite Hid.
  - rewrite Hui. simpl. split; [apply lookup_delete_eq|done].
Qed.

End Shown.

(** ** The help overlay *)

Section HelpProps.
Import HotkeyHelp.
Variables (sections : list SectionInfo.t) (urlMappings : list UrlMapping)
  (currentUrl : string).

Lemma elem_of_uniq (xs : list string) (x : string) : x ∈ uniq xs ↔ x ∈ xs.
Proof.
  induction xs as [|y xs IH]; simpl; [done|].
  rewrite !elem_of_cons, list_elem_of_filter, IH.
  destruct (decide (x = y)) as [->|Hne]; [split; by left|].
  split; [intros [?|[_ ?]]; [done|by right]|intros [?|?]; [done|by right]].
Qed.

Lemma NoDup_uniq (xs : list string) : NoDup (uniq xs).
Proof.
  induction xs as [|y xs IH]; simpl; [constructor|].
  apply NoDup_cons. split; [|by apply NoDup_filter].
  rewrite list_elem_of_filter. tauto.
Qed.

Lemma uniq_sublist (xs : list string) : uniq xs `sublist_of` xs.
Proof.
  induction xs as [|y xs IH]; simpl; [done|].
  apply sublist_skip. etrans; [apply sublist_filter|exact IH].
Qed.

Lemma uniq_nil (xs : list string) : uniq xs = [] ↔ xs = [].
Proof. destruct xs; simpl; split; done. Qed.

Lemma elem_of_concat (x : string) (ls : list (list string)) :
  x ∈ concat ls ↔ ∃ l, x ∈ l ∧ l ∈ ls.
Proof.
  induction ls as [|l ls IH]; simpl.
  - split; [by intros ?%elem_of_nil|by intros (? & _ & ?%elem_of_nil)].
  - rewrite elem_of_app, IH. split.
    + intros [?|(l' & ? & ?)]; [exists l; split; [done|left]|].
      exists l'. split; [done|by right].
    + intros (l' & Hx & [->|?]%elem_of_cons); [by left|right; eauto].
Qed.

Lemma sectionsOfUrl_mappings (url : string) :
  sectionsOfUrl urlMappings url
  = concat (namedSections <$> filter (fun m => regex_test m url = true) urlMappings).
Proof.
  unfold sectionsOfUrl.
  induction urlMappings as [|m ms IH] using rev_ind; [done|].
  rewrite foldl_app, filter_app, fmap_app, concat_app, <- IH. simpl.
  rewrite filter_cons, filter_nil. unfold namedSections.
  destruct (regex_test m url); case_decide; try done; simpl.
  - rewrite app_nil_r. by destruct (section m).
  - by rewrite app_nil_r.
Qed.

(** The order of first occurrence: a value is preceded, in [uniq xs], by
    exactly the values that occur in [xs] before its first occurrence. *)
Lemma uniq_first_occurrence (xs before after : list string) (x : string) :
  xs = before ++ x :: after → x ∉ before →
  ∃ before' after',
    uniq xs = before' ++ x :: after' ∧ ∀ y, y ∈ before' ↔ y ∈ before.
Proof.
  revert before. induction xs as [|z xs IH]; intros before Hxs Hfirst.
  - by destruct before.
  - destruct before as [|b before]; simplify_eq/=.
    + by exists [], (filter (fun y => y ≠ x) (uniq after)).
    + apply not_elem_of_cons in Hfirst as [Hne Hfirst].
      destruct (IH before eq_refl Hfirst) as (before' & after' & -> & Hsame).
      exists (b :: filter (fun y => y ≠ b) before'),
             (filter (fun y => y ≠ b) after').
      rewrite filter_app, filter_cons, decide_True by done. split; [done|].
      intros y. rewrite !elem_of_cons, list_elem_of_filter, Hsame.
      destruct (decide (y = b)) as [->|Hyb]; [split; by left|].
      split; [intros [?|[_ ?]]; [done|by right]|intros [?|?]; [done|by right]].
Qed.

Lemma determineSectionsToShow_cases (sectionOrUrl : SectionOrUrl) :
  let chosen :=
    match urlOf currentUrl sectionOrUrl with
    | Some url => sectionsOfUrl urlMappings url
    | None =>
        match sectionOrUrl with
        | Names names => names
        | Text s => [s]
        | Omitted => []
        end
    end in
  determineSectionsToShow sections urlMappings currentUrl sectionOrUrl
  = if decide (chosen = []) then SectionInfo.id <$> sections else uniq chosen.
Proof.
  intros chosen. unfold determineSectionsToShow.
  assert (match sectionOrUrl with
          | Omitted => sectionsOfUrl urlMappings currentUrl
          | Text s =>
              if truthy s
              then if String.prefix "http" s || String.prefix "/" s
                   then sectionsOfUrl urlMappings s else [s]
              else sectionsOfUrl urlMappings currentUrl
          | Names names => names
          end = chosen) as ->.
  { subst chosen. unfold urlOf. destruct sectionOrUrl as [|s|names]; [done| |done].
    destruct (truthy s); [|done].
    by destruct (orb _ _). }
  destruct chosen as [|x chosen']; simpl; done.
Qed.




End HelpProps.

(** ** The Apply button of a row *)

Section ApplyGate.
Import HotkeyItem.
Variable toLowerCase : string → string.

(** Recording starts with Apply disabled, and Apply stays disabled while
    only bare modifiers go down.  The first other keydown enables it,
    unless no modifier is held and the lower-cased key is the empty
    string: only then is the recorded string empty. *)
Theorem recording_enables_apply (st : State)
    (modifiers : list KeyboardEvent.t) (e : KeyboardEvent.t) :
  Forall (fun m => KeyboardEvent.key m ∈ ["Control"; "Shift"; "Alt"; "Meta"])
    modifiers →
  KeyboardEvent.key e ∉ ["Control"; "Shift"; "Alt"; "Meta"] →
  let recording := handleKeyPresses toLowerCase (startRecordingKeys st) modifiers in
  let recorded := handleKeyPresses toLowerCase (startRecordingKeys st) (modifiers ++ [e]) in
  applyDisabled recording = true
  ∧ keyRecordingMode recording = true
  ∧ (applyDisabled recorded = true
     ↔ KeyboardEvent.ctrlKey e = false ∧ KeyboardEvent.shiftKey e = false
       ∧ KeyboardEvent.altKey e = false ∧ KeyboardEvent.metaKey e = false
       ∧ toLowerCase (KeyboardEvent.key e) = "").
Proof.
  intros Hmods Hkey%isModifierKey_false recording recorded.
  assert (recording = startRecordingKeys st) as Hrec.
  { apply handleKeyPresses_modifiers.
    eapply Forall_impl; [exact Hmods|]. intros m. apply isModifierKey_true. }
  subst recorded. unfold handleKeyPresses in *. rewrite foldl_app.
  fold recording. rewrite Hrec. split; [done|]. split; [done|].
  simpl. unfold handleKeyPress. simpl. rewrite Hkey.
  unfold applyDisabled, keyCombo. simpl. rewrite orb_false_r, negb_true_iff.
  rewrite truthy_false.
  destruct (KeyboardEvent.ctrlKey e), (KeyboardEvent.shiftKey e),
    (KeyboardEvent.altKey e), (KeyboardEvent.metaKey e); simpl;
    (split; [try discriminate|intros (? & ? & ? & ? & ?); try discriminate]);
    [intros ->; done|done].
Qed.

End ApplyGate.

(** ** The further properties on the sample data *)

(** Toggling submit, the only inactive binding, turns the page-wide switch
    on; its section becomes dirty. *)
Lemma handleToggleHotkey_flips_target_witness :
  let w' :=
    dispatch (fun r => handleToggleHotkey r "annotation:submit") Demo.loaded in
  findHotkey (UI.hotkeys (World.ui Demo.loaded)) "annotation:submit"
  = Some Demo.submit
  ∧ UI.dirtyState (World.ui w')
    = <[ "annotation" := true ]> (UI.dirtyState (World.ui Demo.loaded))
  ∧ UI.globalEnabled (World.ui w') = true.
Proof.
  intros w'.
  destruct (handleToggleHotkey_flips_target Demo.loaded "annotation:submit")
    as (_ & _ & Hdirty & _).
  split; [reflexivity|]. split; [apply (Hdirty Demo.submit); reflexivity|].
  reflexivity.
Defined.

(** An id that no binding has. *)
Lemma handleSaveHotkey_unknown_id_witness :
  ("annotation:none" ∉ Hotkey.id <$> UI.hotkeys (World.ui Demo.loaded))
  ∧ dispatch (fun r => handleSaveHotkey r "annotation:none" "ctrl+q") Demo.loaded
    = Demo.loaded
  ∧ dispatch (fun r => updateHotkeyKey r "annotation:none" "ctrl+q") Demo.loaded
    = Demo.loaded.
Proof.
  assert ("annotation:none" ∉ Hotkey.id <$> UI.hotkeys (World.ui Demo.loaded))
    as Hnot by by_evaluation.
  split; [exact Hnot|].
  apply (handleSaveHotkey_unknown_id Demo.loaded "annotation:none" "ctrl+q" Hnot).
Defined.

(** Confirming while no change is pending. *)
Lemma handleConfirmDuplicate_without_pending_witness :
  truthy_opt
    (DuplicateConfirmDialog.hotkeyId (UI.duplicateConfirmDialog (World.ui Demo.loaded)))
  = false
  ∧ UI.hotkeys (World.ui (dispatch handleConfirmDuplicate Demo.loaded))
    = UI.hotkeys (World.ui Demo.loaded).
Proof.
  split; [reflexivity|].
  rewrite (handleConfirmDuplicate_without_pending Demo.loaded (or_introl eq_refl)).
  reflexivity.
Defined.

(** Undo takes the key of submit: afterwards each is reported for the
    other. *)
Lemma allowed_duplicate_is_mutual_witness :
  let hotkeys' :=
    UI.hotkeys
      (World.ui
         (dispatch (fun r => updateHotkeyKey r "annotation:undo" "ctrl+enter")
            Demo.loaded)) in
  "annotation:undo" ∈ Hotkey.id <$> UI.hotkeys (World.ui Demo.loaded)
  ∧ Demo.submit
    ∈ getGlobalDuplicates (UI.hotkeys (World.ui Demo.loaded))
        "annotation:undo" "ctrl+enter"
  ∧ Demo.submit ∈ getGlobalDuplicates hotkeys' "annotation:undo" "ctrl+enter".
Proof.
  intros hotkeys'.
  assert ("annotation:undo" ∈ Hotkey.id <$> UI.hotkeys (World.ui Demo.loaded))
    as Hloaded by by_evaluation.
  assert (Demo.submit
          ∈ getGlobalDuplicates (UI.hotkeys (World.ui Demo.loaded))
              "annotation:undo" "ctrl+enter") as Hdup by by_evaluation.
  split; [exact Hloaded|]. split; [exact Hdup|].
  apply (allowed_duplicate_is_mutual Demo.loaded "annotation:undo" "ctrl+enter"
           Demo.submit Hloaded Hdup).
Defined.


(** Saving before anything is loaded. *)
Lemma handleSaveSection_empty_list_resets_witness :
  UI.hotkeys (World.ui Demo.mounted) = []
  ∧ World.sent
      (dispatch (fun r => handleSaveSection Demo.env r "settings") Demo.mounted)
    = World.sent Demo.mounted ++ [RequestBody.mk ∅ (HotkeySettings.mk true)].
Proof.
  split; [reflexivity|].
  apply (handleSaveSection_empty_list_resets Demo.env Demo.mounted "settings" eq_refl).
Defined.

(** Importing a bare list of one binding into a store that refuses it. *)
Lemma handleImportHotkeys_failure_keeps_import_witness :
  let env := Demo.env_refusing 500 in
  let w' :=
    dispatch (fun r => handleImportHotkeys env r (ImportedArray [Demo.undo]))
      Demo.edited in
  updateAccepted env (requestBody [Demo.undo] (HotkeySettings.mk true))
    (World.remote Demo.edited) = false
  ∧ UI.hotkeys (World.ui w') = [Demo.undo]
  ∧ UI.dirtyState (World.ui w') = UI.dirtyState (World.ui Demo.edited).
Proof.
  intros env w'.
  destruct (handleImportHotkeys_failure_keeps_import env Demo.edited
              (ImportedArray [Demo.undo]) eq_refl)
    as (Hlist & _ & _ & Hdirty & _).
  split; [reflexivity|]. split; [exact Hlist|exact Hdirty].
Defined.


(** Load, save, load again on the sample catalog. *)
Lemma reload_of_saved_merge_witness :
  let custom : CustomHotkeys :=
    {[ "annotation:undo" := CustomSetting.mk "ctrl+y" false (Some "Take back") ]} in
  NoDup (lookupKey <$> Demo.defaults)
  ∧ updateHotkeysWithCustomSettings Demo.defaults
      (toCustomHotkeys (updateHotkeysWithCustomSettings Demo.defaults custom))
    = updateHotkeysWithCustomSettings Demo.defaults custom.
Proof.
  intros custom.
  assert (NoDup (lookupKey <$> Demo.defaults)) as Hnd by by_evaluation.
  split; [exact Hnd|].
  apply (reload_of_saved_merge Demo.defaults custom Hnd).
Defined.

(** The stray binding is on no card of the page and is saved all the same. *)
Lemma renderedHotkeys_listed_sections_only_witness :
  Demo.stray ∈ UI.hotkeys Demo.with_stray
  ∧ (Hotkey.section Demo.stray ∉ SectionInfo.id <$> Env.HOTKEY_SECTIONS Demo.env)
  ∧ (¬ ∃ sectionId shown,
         (sectionId, shown) ∈ renderedHotkeys Demo.env Demo.with_stray
         ∧ Demo.stray ∈ shown)
  ∧ is_Some (toCustomHotkeys (UI.hotkeys Demo.with_stray) !! lookupKey Demo.stray).
Proof.
  assert (Demo.stray ∈ UI.hotkeys Demo.with_stray) as Hin by by_evaluation.
  assert (Hotkey.section Demo.stray
          ∉ SectionInfo.id <$> Env.HOTKEY_SECTIONS Demo.env) as Hnot
    by by_evaluation.
  destruct (renderedHotkeys_listed_sections_only Demo.env Demo.with_stray)
    as (_ & Hshown & Hsaved).
  split; [exact Hin|]. split; [exact Hnot|]. split.
  - intros Hsome. apply Hshown in Hsome as [_ Hlisted]. exact (Hnot Hlisted).
  - apply Hsaved. exact Hin.
Defined.

(** Rebinding undo to [ctrl+y], then saving the annotation section. *)
Lemma edit_then_save_section_witness :
  let w1 :=
    dispatch (fun r => handleSaveHotkey r "annotation:undo" "ctrl+y") Demo.loaded in
  let body := requestBody (UI.hotkeys (World.ui w1)) (HotkeySettings.mk true) in
  let w2 := dispatch (fun r => handleSaveSection Demo.env r "annotation") w1 in
  findHotkey (UI.hotkeys (World.ui Demo.loaded)) "annotation:undo" = Some Demo.undo
  ∧ getGlobalDuplicates (UI.hotkeys (World.ui Demo.loaded)) "annotation:undo" "ctrl+y"
    = []
  ∧ NoDup (lookupKey <$> UI.hotkeys (World.ui Demo.loaded))
  ∧ updateAccepted Demo.env body (World.remote Demo.loaded) = true
  ∧ RequestBody.custom_hotkeys body !! "annotation:undo"
    = Some (CustomSetting.mk "ctrl+y" true (Some "Undo"))
  ∧ UI.dirtyState (World.ui w2) !! "annotation" = None.
Proof.
  intros w1 body w2.
  assert (NoDup (lookupKey <$> UI.hotkeys (World.ui Demo.loaded))) as Hnd
    by by_evaluation.
  destruct (edit_then_save_section Demo.env Demo.loaded "annotation:undo" "ctrl+y"
              Demo.undo eq_refl eq_refl Hnd eq_refl)
    as (_ & _ & Hentry & Hclean & _).
  split; [reflexivity|]. split; [reflexivity|]. split; [exact Hnd|].
  split; [reflexivity|]. split; [exact Hentry|exact Hclean].
Defined.




(** Shift alone keeps Apply disabled; Shift with [A] enables it. *)
Lemma recording_enables_apply_witness :
  let st := HotkeyItem.mkState "ctrl+z" false "" in
  let shift := KeyboardEvent.mk "Shift" false true false false in
  let shift_a := KeyboardEvent.mk "A" false true false false in
  Forall (fun m => KeyboardEvent.key m ∈ ["Control"; "Shift"; "Alt"; "Meta"]) [shift]
  ∧ (KeyboardEvent.key shift_a ∉ ["Control"; "Shift"; "Alt"; "Meta"])
  ∧ applyDisabled
      (HotkeyItem.handleKeyPresses HotkeyItem.ascii_toLowerCase
         (HotkeyItem.startRecordingKeys st) [shift]) = true
  ∧ applyDisabled
      (HotkeyItem.handleKeyPresses HotkeyItem.ascii_toLowerCase
         (HotkeyItem.startRecordingKeys st) ([shift] ++ [shift_a])) = false.
Proof.
  intros st shift shift_a.
  assert (Forall (fun m => KeyboardEvent.key m ∈ ["Control"; "Shift"; "Alt"; "Meta"])
            [shift]) as Hmods by by_evaluation.
  assert (KeyboardEvent.key shift_a ∉ ["Control"; "Shift"; "Alt"; "Meta"])
    as Hkey by by_evaluation.
  destruct (recording_enables_apply HotkeyItem.ascii_toLowerCase st [shift]
              shift_a Hmods Hkey) as (Hdisabled & _ & _).
  split; [exact Hmods|]. split; [exact Hkey|]. split; [exact Hdisabled|].
  reflexivity.
Defined.
